(** * GitHub contribution simulator: a shallow embedding of [simulator.py]

  The development follows the module top-down: Python values the module
  relies on (exceptions, [datetime.date], [datetime.datetime], the
  [random] module), then [ContributionProfile], [CommitMessageGenerator],
  [ContributionSimulator] and [get_stats], then [generate_contributions]
  of [generate_commits.py], and finally the properties.

  Conventions.
  - Python [int] is [Z]; Python [float] is modelled by an exact rational
    [Q] (binary rounding is not modelled; every property below depends
    only on the order of the values involved).
  - A Python [dict] is a [gmap]; a [list] is a [list].
  - The process-wide generator of the [random] module is an explicit
    state threaded through every call.
  - Printing, the command line, JSON export and the git commands are not
    modelled. *)

From Stdlib Require Import ZArith QArith Qround String Ascii List Lia Sorted.
From stdpp Require Import base gmap strings list fin_maps sorting.

Open Scope Z_scope.

(** ** Outcomes of a Python call *)

Inductive exn : Type :=
| ValueError
| IndexError
| KeyError
| OverflowError.

(** [Exhausted] is not a Python outcome: it marks a loop of the model that
  ran out of fuel.  It is shown unreachable for every loop below. *)
Inductive outcome (A : Type) : Type :=
| Returned (a : A)
| Raised (e : exn)
| Exhausted.

Arguments Returned {A} a.
Arguments Raised {A} e.
Arguments Exhausted {A}.

Definition obind {A B : Type} (o : outcome A) (k : A -> outcome B) : outcome B :=
  match o with
  | Returned a => k a
  | Raised e => Raised e
  | Exhausted => Exhausted
  end.

(** ** Floats as rationals *)

Definition Qltb (x y : Q) : bool := negb (Qle_bool y x).

(** Python's [int(x)] on a float truncates toward zero. *)
Definition int_of_float (x : Q) : Z := Z.quot (Qnum x) (Zpos (Qden x)).

(** ** [datetime.date]

  A date is represented by its proleptic Gregorian ordinal
  ([date.toordinal()]): 0001-01-01 is day 1 and 9999-12-31, [date.max],
  is day 3652059.  Comparison of dates is comparison of ordinals and
  adding a [timedelta] of [n] days adds [n] to the ordinal. *)

Module PyDate.

Definition date : Type := Z.

Definition MAXORDINAL : Z := 3652059.

Definition valid (d : date) : Prop := 1 <= d <= MAXORDINAL.

Definition is_leap (year : Z) : bool :=
  (year mod 4 =? 0) && (negb (year mod 100 =? 0) || (year mod 400 =? 0)).

Definition days_before_year (year : Z) : Z :=
  let y := year - 1 in y * 365 + y / 4 - y / 100 + y / 400.

Definition days_in_month (year month : Z) : Z :=
  if month =? 2 then (if is_leap year then 29 else 28)
  else if (month =? 4) || (month =? 6) || (month =? 9) || (month =? 11) then 30
  else 31.

Fixpoint days_before_month_aux (year : Z) (months : nat) : Z :=
  match months with
  | O => 0
  | S m => days_before_month_aux year m + days_in_month year (Z.of_nat (S m))
  end.

Definition days_before_month (year month : Z) : Z :=
  days_before_month_aux year (Z.to_nat (month - 1)).

(** [date(year, month, day).toordinal()] *)
Definition ymd (year month day : Z) : date :=
  days_before_year year + days_before_month year month + day.

(** [date.weekday()]: Monday is 0, Sunday is 6. *)
Definition weekday (d : date) : Z := (d + 6) mod 7.

(** [d + timedelta(days=n)]: the result must be a representable date. *)
Definition add_days (d : date) (n : Z) : outcome date :=
  let o := d + n in
  if (0 <? o) && (o <=? MAXORDINAL) then Returned o else Raised OverflowError.

End PyDate.

(** ** [datetime.datetime] at second precision

  The simulator only builds datetimes with [microsecond = 0] and no time
  zone.  [datetime(date.year, date.month, date.day, h, m, s)] has the
  calendar day of [date], so the value keeps the ordinal of that day. *)

Record datetime : Type := mk_datetime {
  dt_date : PyDate.date;
  dt_hour : Z;
  dt_minute : Z;
  dt_second : Z
}.

(** The constructor validates the time fields. *)
Definition datetime_new (d : PyDate.date) (hour minute second : Z) : outcome datetime :=
  if negb ((0 <=? hour) && (hour <=? 23)) then Raised ValueError
  else if negb ((0 <=? minute) && (minute <=? 59)) then Raised ValueError
  else if negb ((0 <=? second) && (second <=? 59)) then Raised ValueError
  else Returned (mk_datetime d hour minute second).

(** Datetimes compare field by field, most significant first. *)
Definition datetime_ltb (a b : datetime) : bool :=
  if dt_date a <? dt_date b then true
  else if dt_date b <? dt_date a then false
  else if dt_hour a <? dt_hour b then true
  else if dt_hour b <? dt_hour a then false
  else if dt_minute a <? dt_minute b then true
  else if dt_minute b <? dt_minute a then false
  else dt_second a <? dt_second b.

Definition datetime_le (a b : datetime) : Prop := datetime_ltb b a = false.

(** [list.sort()] on datetimes.  The order is total and two datetimes that
  compare equal are the same value, so the sorted list is unique and any
  sorting algorithm yields what Python's does; insertion sort is used. *)
Fixpoint sort_insert (x : datetime) (l : list datetime) : list datetime :=
  match l with
  | [] => [x]
  | y :: l' => if datetime_ltb y x then y :: sort_insert x l' else x :: l
  end.

Fixpoint list_sort (l : list datetime) : list datetime :=
  match l with
  | [] => []
  | x :: l' => sort_insert x (list_sort l')
  end.

(** ** The [random] module

  The Mersenne Twister itself is not modelled.  A generator is any state
  type with the primitives below and their documented ranges:
  [random()] lies in [[0, 1)], [_randbelow(n)] lies in [[0, n)] for
  positive [n]; [gauss] may return any float.  [seed(n)] replaces the
  whole state (including the cached Gaussian) by one that depends on [n]
  alone. *)

Class RandomGen (G : Type) : Type := {
  rng_seed : Z -> G;
  rng_random : G -> Q * G;
  rng_randbelow : Z -> G -> Z * G;
  rng_gauss : Q -> Q -> G -> Q * G;
  rng_random_unit : forall g, (0 <= fst (rng_random g))%Q /\ (fst (rng_random g) < 1)%Q;
  rng_randbelow_range : forall n g, 0 < n -> 0 <= fst (rng_randbelow n g) < n
}.

(** Computations over the global generator: a state and error monad. *)
Definition M (G A : Type) : Type := G -> outcome (A * G).

Definition ret {G A : Type} (a : A) : M G A := fun g => Returned (a, g).

Definition raise {G A : Type} (e : exn) : M G A := fun _ => Raised e.

Definition bind {G A B : Type} (m : M G A) (k : A -> M G B) : M G B :=
  fun g =>
  match m g with
  | Returned (a, g') => k a g'
  | Raised e => Raised e
  | Exhausted => Exhausted
  end.

Definition lift {G A : Type} (o : outcome A) : M G A :=
  fun g =>
  match o with
  | Returned a => Returned (a, g)
  | Raised e => Raised e
  | Exhausted => Exhausted
  end.

Declare Scope py_scope.
Delimit Scope py_scope with py.
Notation "x <- m ;; k" := (bind m (fun x => k))
  (at level 100, m at next level, right associativity) : py_scope.
Open Scope py_scope.

Section PyRandom.
Context {G : Type} {RG : RandomGen G}.

(** [random.random()] *)
Definition random : M G Q :=
  fun g => let (u, g') := rng_random g in Returned (u, g').

(** [random.gauss(mu, sigma)] *)
Definition gauss (mu sigma : Q) : M G Q :=
  fun g => let (x, g') := rng_gauss mu sigma g in Returned (x, g').

(** [random.randint(a, b)] is [randrange(a, b + 1)]: it raises
    [ValueError] on an empty range and otherwise returns
    [a + _randbelow(b + 1 - a)]. *)
Definition randint (a b : Z) : M G Z :=
  let width := b + 1 - a in
  if 0 <? width then
    fun g => let (r, g') := rng_randbelow width g in Returned (a + r, g')
  else raise ValueError.

(** [random.choice(seq)] is [seq[_randbelow(len(seq))]] and raises
    [IndexError] on an empty sequence. *)
Definition choice {A : Type} (seq : list A) : M G A :=
  match seq with
  | [] => raise IndexError
  | _ :: _ =>
      fun g =>
        let (i, g') := rng_randbelow (Z.of_nat (length seq)) g in
        match nth_error seq (Z.to_nat i) with
        | Some x => Returned (x, g')
        | None => Raised IndexError
        end
  end.

End PyRandom.

(** ** [Commit] *)

Record Commit : Type := mk_Commit {
  timestamp : datetime;
  message : string
}.

(** ** [ContributionProfile] *)

(** One entry of [PROFILES].  The inner dictionaries all have the same
    eight keys, so an entry is a record; [config_dict] below gives the
    dictionary [get_config] reads.  The integer averages 3 and 5 are only
    used in float arithmetic and are stored as rationals. *)
Record Config : Type := mk_Config {
  daily_commit_prob : Q;
  weekend_reduction : Q;
  avg_commits_per_day : Q;
  max_commits_per_day : Z;
  burst_probability : Q;
  burst_multiplier : Q;
  commit_time_start : Z;
  commit_time_end : Z
}.

Definition light_config : Config :=
  mk_Config (4 # 10) (3 # 10) (15 # 10) 4 (5 # 100) (25 # 10) 9 18.

Definition medium_config : Config :=
  mk_Config (7 # 10) (5 # 10) 3 8 (1 # 10) 2 8 22.

Definition heavy_config : Config :=
  mk_Config (9 # 10) (7 # 10) 5 15 (15 # 100) (18 # 10) 7 23.

Definition PROFILES : gmap string Config :=
  <["light" := light_config]> (<["medium" := medium_config]> (<["heavy" := heavy_config]> ∅)).

Inductive Value : Type :=
| VInt (n : Z)
| VFloat (x : Q).

Definition config_dict (c : Config) : gmap string Value :=
  <["daily_commit_prob" := VFloat (daily_commit_prob c)]>
  (<["weekend_reduction" := VFloat (weekend_reduction c)]>
  (<["avg_commits_per_day" := VFloat (avg_commits_per_day c)]>
  (<["max_commits_per_day" := VInt (max_commits_per_day c)]>
  (<["burst_probability" := VFloat (burst_probability c)]>
  (<["burst_multiplier" := VFloat (burst_multiplier c)]>
  (<["commit_time_start" := VInt (commit_time_start c)]>
  (<["commit_time_end" := VInt (commit_time_end c)]> ∅))))))).

Record ContributionProfile : Type := mk_ContributionProfile {
  config : Config;
  intensity : string
}.

(** [ContributionProfile.__init__] *)
Definition ContributionProfile_init (intensity : string) : outcome ContributionProfile :=
  match PROFILES !! intensity with
  | None => Raised ValueError
  | Some c => Returned (mk_ContributionProfile c intensity)
  end.

(** [ContributionProfile.get_config]: [self.config[key]] *)
Definition get_config (self : ContributionProfile) (key : string) : outcome Value :=
  match config_dict (config self) !! key with
  | Some v => Returned v
  | None => Raised KeyError
  end.

(** ** [CommitMessageGenerator] *)

Definition PREFIXES : list string :=
  ["feat"; "fix"; "docs"; "style"; "refactor";
   "test"; "chore"; "perf"; "build"; "ci"; "wip"]%string.

Definition ACTIONS : list string :=
  ["update"; "add"; "remove"; "fix"; "implement";
   "refactor"; "optimize"; "improve"; "clean up";
   "rework"; "simplify"; "enhance"; "adjust";
   "tweak"; "revise"; "modify"; "patch"]%string.

Definition OBJECTS : list string :=
  ["README"; "config"; "tests"; "utils"; "helpers";
   "main module"; "API"; "docs"; "dependencies";
   "deployment"; "CI config"; "error handling";
   "validation"; "logging"; "database"; "models";
   "routes"; "components"; "styles"; "assets"]%string.

Definition DETAILS : list string :=
  ["for better performance"; "to handle edge cases";
   "based on feedback"; "for compatibility";
   "to fix bug"; "as requested"; "for clarity";
   "per review comments"; "to improve UX";
   "to address security issue"; EmptyString; EmptyString; EmptyString]%string.

Definition ascii_upper (c : ascii) : ascii :=
  let n := nat_of_ascii c in
  if (97 <=? n)%nat && (n <=? 122)%nat then ascii_of_nat (n - 32) else c.

Definition ascii_lower (c : ascii) : ascii :=
  let n := nat_of_ascii c in
  if (65 <=? n)%nat && (n <=? 90)%nat then ascii_of_nat (n + 32) else c.

Fixpoint string_map (f : ascii -> ascii) (s : string) : string :=
  match s with
  | EmptyString => EmptyString
  | String c r => String (f c) (string_map f r)
  end.

(** [str.capitalize()] on ASCII text: first character upper-cased, the
    rest lower-cased. *)
Definition capitalize (s : string) : string :=
  match s with
  | EmptyString => EmptyString
  | String c r => String (ascii_upper c) (string_map ascii_lower r)
  end.

(** Truth value of a string: non-empty. *)
Definition truthy (s : string) : bool :=
  match s with
  | EmptyString => false
  | String _ _ => true
  end.

Section Generator.
Context {G : Type} {RG : RandomGen G}.

(** [CommitMessageGenerator.generate] *)
Definition generate : M G string :=
  style <- random;;
  if Qltb style (4 # 10) then
    prefix <- choice PREFIXES;;
    action <- choice ACTIONS;;
    obj <- choice OBJECTS;;
    detail <- choice DETAILS;;
    if truthy detail
    then ret (prefix +:+ ": " +:+ action +:+ " " +:+ obj +:+ " " +:+ detail)
    else ret (prefix +:+ ": " +:+ action +:+ " " +:+ obj)
  else if Qltb style (7 # 10) then
    action0 <- choice ACTIONS;;
    let action := capitalize action0 in
    obj <- choice OBJECTS;;
    ret (action +:+ " " +:+ obj)
  else
    action <- choice ACTIONS;;
    obj <- choice OBJECTS;;
    detail <- choice DETAILS;;
    if truthy detail
    then ret (action +:+ " " +:+ obj +:+ " " +:+ detail)
    else ret (action +:+ " " +:+ obj).

End Generator.

(** ** [ContributionSimulator] *)

Record ContributionSimulator : Type := mk_ContributionSimulator {
  start_date : PyDate.date;
  end_date : PyDate.date;
  profile : ContributionProfile;
  seed : option Z
}.

(** The peak-hour test of [_biased_hour]:
    [10 <= hour <= 12 or 14 <= hour <= 17]. *)
Definition peak_hour (hour : Z) : bool :=
  ((10 <=? hour) && (hour <=? 12)) || ((14 <=? hour) && (hour <=? 17)).

Section Simulator.
Context {G : Type} {RG : RandomGen G}.

(** [ContributionSimulator.__init__].  [today] is the value of
    [datetime.date.today()]; a date object is always true, so
    [end_date or today] is [end_date] whenever one is given.  The profile
    is built before the generator is seeded. *)
Definition ContributionSimulator_init (today start_date : PyDate.date)
    (end_date : option PyDate.date) (intensity : string) (seed : option Z)
    : M G ContributionSimulator :=
  let end_date := match end_date with Some e => e | None => today end in
  profile <- lift (ContributionProfile_init intensity);;
  let self := mk_ContributionSimulator start_date end_date profile seed in
  match seed with
  | Some n => fun _ => Returned (self, rng_seed n)
  | None => ret self
  end.

(** [_should_commit_today] *)
Definition _should_commit_today (self : ContributionSimulator) (date : PyDate.date) : M G bool :=
  let base_prob := daily_commit_prob (config (profile self)) in
  let base_prob :=
    if 5 <=? PyDate.weekday date
    then (base_prob * weekend_reduction (config (profile self)))%Q
    else base_prob in
  u <- random;;
  ret (Qltb u base_prob).

(** [_get_commit_count] *)
Definition _get_commit_count (self : ContributionSimulator) (date : PyDate.date) : M G Z :=
  let avg := avg_commits_per_day (config (profile self)) in
  let max_commits := max_commits_per_day (config (profile self)) in
  x <- gauss avg (avg * (5 # 10))%Q;;
  let count := Z.max 1 (int_of_float x) in
  u <- random;;
  let count :=
    if Qltb u (burst_probability (config (profile self)))
    then int_of_float (inject_Z count * burst_multiplier (config (profile self)))%Q
    else count in
  ret (Z.min count max_commits).

(** The [while attempts < 10] loop of [_biased_hour].  The [elif] belongs
    to the peak-hour test, so an iteration draws a candidate hour and then
    one acceptance value, compared with 0.7 or with 0.4. *)
Fixpoint biased_hour_loop (fuel : nat) (attempts : Z) (start end_ : Z) : M G Z :=
  if attempts <? 10 then
    match fuel with
    | O => fun _ => Exhausted
    | S fuel' =>
        hour <- randint start end_;;
        if peak_hour hour then
          u <- random;;
          if Qltb u (7 # 10) then ret hour
          else biased_hour_loop fuel' (attempts + 1) start end_
        else
          u <- random;;
          if Qltb u (4 # 10) then ret hour
          else biased_hour_loop fuel' (attempts + 1) start end_
    end
  else randint start end_.

(** [_biased_hour] *)
Definition _biased_hour (start end_ : Z) : M G Z :=
  biased_hour_loop 10 0 start end_.

(** The [for _ in range(count)] loop of [_generate_commit_times]. *)
Fixpoint commit_times_loop (date : PyDate.date) (start_hour end_hour : Z)
    (n : nat) (times : list datetime) : M G (list datetime) :=
  match n with
  | O => ret times
  | S n' =>
      hour <- _biased_hour start_hour end_hour;;
      minute <- randint 0 59;;
      second <- randint 0 59;;
      dt <- lift (datetime_new date hour minute second);;
      commit_times_loop date start_hour end_hour n' (times ++ [dt])
  end.

(** [_generate_commit_times]; [range(count)] is empty for [count <= 0]. *)
Definition _generate_commit_times (self : ContributionSimulator)
    (date : PyDate.date) (count : Z) : M G (list datetime) :=
  let start_hour := commit_time_start (config (profile self)) in
  let end_hour := commit_time_end (config (profile self)) in
  times <- commit_times_loop date start_hour end_hour (Z.to_nat count) [];;
  ret (list_sort times).

(** The [for dt in times] loop of [generate_day]. *)
Fixpoint commits_loop (times : list datetime) (commits : list Commit) : M G (list Commit) :=
  match times with
  | [] => ret commits
  | dt :: rest =>
      message <- generate;;
      commits_loop rest (commits ++ [mk_Commit dt message])
  end.

(** [generate_day] *)
Definition generate_day (self : ContributionSimulator) (date : PyDate.date) : M G (list Commit) :=
  active <- _should_commit_today self date;;
  if negb active then ret []
  else
    count <- _get_commit_count self date;;
    times <- _generate_commit_times self date count;;
    commits_loop times [].

(** The [while current_date <= self.end_date] loop of [simulate]. *)
Fixpoint simulate_loop (self : ContributionSimulator) (fuel : nat)
    (current_date : PyDate.date) (all_commits : list Commit) : M G (list Commit) :=
  if current_date <=? end_date self then
    match fuel with
    | O => fun _ => Exhausted
    | S fuel' =>
        day_commits <- generate_day self current_date;;
        next <- lift (PyDate.add_days current_date 1);;
        simulate_loop self fuel' next (all_commits ++ day_commits)
    end
  else ret all_commits.

(** [simulate].  The loop runs once per day of the range, which bounds the
    fuel. *)
Definition simulate (self : ContributionSimulator) : M G (list Commit) :=
  simulate_loop self (Z.to_nat (end_date self + 1 - start_date self)) (start_date self) [].

(** Building a simulator and running it once, as [main] and
    [generate_contributions] do: the spec's
    [simulate(start_date, end_date, profile, seed)]. *)
Definition run_simulation (today start_date : PyDate.date)
    (end_date : option PyDate.date) (intensity : string) (seed : option Z)
    : M G (list Commit) :=
  self <- ContributionSimulator_init today start_date end_date intensity seed;;
  simulate self.

End Simulator.

(** ** [get_stats] *)

Notation "x <~ o ;; k" := (obind o (fun x => k))
  (at level 100, o at next level, right associativity) : py_scope.

(** [d[k]] *)
Definition dict_getitem {K V : Type} `{Countable K} (d : gmap K V) (k : K) : outcome V :=
  match d !! k with
  | Some v => Returned v
  | None => Raised KeyError
  end.

(** [{i: 0 for i in range(n)}]: the keys 0, ..., n-1 are inserted in
    increasing order, each with the value 0. *)
Fixpoint zero_buckets (n : nat) : gmap Z Z :=
  match n with
  | O => ∅
  | S n' => <[Z.of_nat n' := 0]> (zero_buckets n')
  end.

(** [d[k] += 1] *)
Definition dict_incr (d : gmap Z Z) (k : Z) : outcome (gmap Z Z) :=
  v <~ dict_getitem d k;;
  Returned (<[k := v + 1]> d).

Record Buckets : Type := mk_Buckets {
  by_date : gmap Z Z;
  by_weekday : gmap Z Z;
  by_hour : gmap Z Z
}.

(** The [for commit in commits] loop of [get_stats]. *)
Fixpoint stats_loop (commits : list Commit) (b : Buckets) : outcome Buckets :=
  match commits with
  | [] => Returned b
  | commit :: rest =>
      let date_key := dt_date (timestamp commit) in
      let by_date' := <[date_key := default 0 (by_date b !! date_key) + 1]> (by_date b) in
      by_weekday' <~ dict_incr (by_weekday b) (PyDate.weekday (dt_date (timestamp commit)));;
      by_hour' <~ dict_incr (by_hour b) (dt_hour (timestamp commit));;
      stats_loop rest (mk_Buckets by_date' by_weekday' by_hour')
  end.

(** The values of the dictionary [get_stats] returns. *)
Inductive StatValue : Type :=
| SInt (n : Z)
| SFloat (x : Q)
| SNamed (d : gmap string Z)
| SIndexed (d : gmap Z Z).

(** [max(l) if l else 0] *)
Definition max_or_zero (l : list Z) : Z :=
  match l with
  | [] => 0
  | x :: r => fold_left Z.max r x
  end.

Definition len {A : Type} (l : list A) : Z := Z.of_nat (length l).

(** [get_stats] *)
Definition get_stats (commits : list Commit) : outcome (gmap string StatValue) :=
  match commits with
  | [] => Returned ∅
  | _ :: _ =>
      b <~ stats_loop commits (mk_Buckets ∅ (zero_buckets 7) (zero_buckets 24));;
      let daily_counts := (map_to_list (by_date b)).*2 in
      let active_days := Z.of_nat (size (by_date b)) in
      let avg :=
        if active_days =? 0 then SInt 0
        else SFloat (inject_Z (len commits) / inject_Z active_days)%Q in
      mon <~ dict_getitem (by_weekday b) 0;;
      tue <~ dict_getitem (by_weekday b) 1;;
      wed <~ dict_getitem (by_weekday b) 2;;
      thu <~ dict_getitem (by_weekday b) 3;;
      fri <~ dict_getitem (by_weekday b) 4;;
      sat <~ dict_getitem (by_weekday b) 5;;
      sun <~ dict_getitem (by_weekday b) 6;;
      Returned
        (<["total_commits" := SInt (len commits)]>
        (<["active_days" := SInt active_days]>
        (<["avg_commits_per_active_day" := avg]>
        (<["max_commits_in_day" := SInt (max_or_zero daily_counts)]>
        (<["by_weekday" := SNamed
             (<["Mon" := mon]> (<["Tue" := tue]> (<["Wed" := wed]>
             (<["Thu" := thu]> (<["Fri" := fri]> (<["Sat" := sat]>
             (<["Sun" := sun]> ∅)))))))]>
        (<["by_hour" := SIndexed (by_hour b)]> ∅))))))
  end.

(** [sum(d.values())] *)
Definition sum_values {K : Type} `{Countable K} (d : gmap K Z) : Z :=
  map_fold (fun _ v acc => v + acc) 0 d.

(** How [main] and [generate_contributions] read the summary:
    [stats['total_commits']] and the like. *)
Definition stats_field (stats : gmap string StatValue) (key : string) : outcome StatValue :=
  dict_getitem stats key.

(** ** A scripted generator

    A generator whose draws are read off a list of raw values, one value
    per primitive call (0 once the list is used up).  It is an instance of
    the interface, used to run the model on concrete inputs. *)

Definition script_next (g : list Z) : Z * list Z :=
  match g with
  | [] => (0, [])
  | r :: g' => (r, g')
  end.

Definition script_random (g : list Z) : Q * list Z :=
  let (r, g') := script_next g in (Qmake (r mod 100) 100, g').

Definition script_randbelow (n : Z) (g : list Z) : Z * list Z :=
  let (r, g') := script_next g in (r mod n, g').

Definition script_gauss (mu sigma : Q) (g : list Z) : Q * list Z :=
  let (r, g') := script_next g in ((mu + sigma * inject_Z (r mod 7 - 3))%Q, g').

Fixpoint lcg_stream (n : nat) (x : Z) : list Z :=
  match n with
  | O => []
  | S n' =>
      let y := (1103515245 * x + 12345) mod 2147483648 in
      (y / 65536) :: lcg_stream n' y
  end.

Definition script_seed (n : Z) : list Z := lcg_stream 400 (Z.abs n).

#[export] Instance script_rng : RandomGen (list Z).
Proof.
  refine {| rng_seed := script_seed;
            rng_random := script_random;
            rng_randbelow := script_randbelow;
            rng_gauss := script_gauss |}.
  - intros g. unfold script_random. destruct (script_next g) as [r g']. simpl.
    pose proof (Z.mod_pos_bound r 100 ltac:(lia)) as Hb.
    unfold Qle, Qlt. simpl. lia.
  - intros n g Hn. unfold script_randbelow. destruct (script_next g) as [r g']. simpl.
    apply Z.mod_pos_bound. exact Hn.
Defined.

(** ** Predicates used in the statements *)

(** The three names of [PROFILES]. *)
Definition canonical (name : string) : Prop :=
  name = "light"%string \/ name = "medium"%string \/ name = "heavy"%string.

(** The keys of a [PROFILES] entry. *)
Definition parameter_keys : list string :=
  ["daily_commit_prob"; "weekend_reduction"; "avg_commits_per_day";
   "max_commits_per_day"; "burst_probability"; "burst_multiplier";
   "commit_time_start"; "commit_time_end"]%string.

(** A label built around an action word and an object word. *)
Definition action_object_label (msg : string) : Prop :=
  exists pre action obj post,
    msg = pre +:+ action +:+ " " +:+ obj +:+ post /\
    (In action ACTIONS \/ exists a, In a ACTIONS /\ action = capitalize a) /\
    In obj OBJECTS.


(** A timestamp on day [date] whose hour lies in [[lo, hi]]. *)
Definition in_day (date : PyDate.date) (lo hi : Z) (dt : datetime) : Prop :=
  dt_date dt = date /\ lo <= dt_hour dt <= hi.

(** The invariants of an intensity profile that the engine relies on: a
    positive daily cap, a burst factor of at least one, and active hours
    that are hours of the day. *)
Definition well_formed (c : Config) : Prop :=
  1 <= max_commits_per_day c /\
  (1 <= burst_multiplier c)%Q /\
  0 <= commit_time_start c /\
  commit_time_start c <= commit_time_end c /\
  commit_time_end c <= 23.

(** Volume selection as the specification words it, as a function of the
    Gaussian draw [x] and the burst draw [u]: truncate the draw, clamp to a
    minimum of 1, then multiply by the burst factor (truncated) when the
    burst draw is below the burst probability, then clamp to the cap. *)
Definition volume_of_draws (c : Config) (x u : Q) : Z :=
  let clamped_low := Z.max 1 (int_of_float x) in
  let after_burst :=
    if Qltb u (burst_probability c)
    then int_of_float (inject_Z clamped_low * burst_multiplier c)%Q
    else clamped_low in
  Z.min after_burst (max_commits_per_day c).

(** An event of the engine: its timestamp and the profile's hours. *)
Definition event_in (self : ContributionSimulator) (lo hi : PyDate.date) (c : Commit) : Prop :=
  lo <= dt_date (timestamp c) <= hi /\
  commit_time_start (config (profile self)) <= dt_hour (timestamp c)
    <= commit_time_end (config (profile self)).

Definition on_day (d : PyDate.date) (dt : datetime) : bool := dt_date dt =? d.

(** ** The hour sampler as a specification

    One attempt draws a candidate hour and an acceptance value; the
    candidate is accepted when the value is below 0.7 in a peak window and
    below 0.4 elsewhere. *)

Section HourSamplerSpec.
Context {G : Type} {RG : RandomGen G}.

Definition attempt (start end_ : Z) : M G (Z * bool) :=
  hour <- randint start end_;;
  u <- random;;
  ret (hour, Qltb u (if peak_hour hour then 7 # 10 else 4 # 10)).

(** The sampler as the specification words it: after the last rejected
    attempt the hour drawn last is accepted, with no further draw. *)
Fixpoint keep_last_loop (attempts_left : nat) (last : Z) (start end_ : Z) : M G Z :=
  match attempts_left with
  | O => ret last
  | S n =>
      a <- attempt start end_;;
      if snd a then ret (fst a) else keep_last_loop n (fst a) start end_
  end.

Definition biased_hour_keep_last (start end_ : Z) : M G Z :=
  keep_last_loop 10 start start end_.

(** The sampler with a fresh draw after the last rejected attempt. *)
Fixpoint redraw_loop (attempts_left : nat) (start end_ : Z) : M G Z :=
  match attempts_left with
  | O => randint start end_
  | S n =>
      a <- attempt start end_;;
      if snd a then ret (fst a) else redraw_loop n start end_
  end.

Definition biased_hour_redraw (start end_ : Z) : M G Z :=
  redraw_loop 10 start end_.

End HourSamplerSpec.

(** A profile with activation probability 1 and burst probability 0 whose
    other parameters are those of [medium]. *)
Definition always_active_config : Config :=
  mk_Config 1 (5 # 10) 3 8 0 2 8 22.

Definition always_active_profile : ContributionProfile :=
  mk_ContributionProfile always_active_config "medium".

Definition medium_profile : ContributionProfile :=
  mk_ContributionProfile medium_config "medium".

(** ** Concrete inputs *)

(** Monday 2022-01-03, [medium], on a short script of draws. *)
Definition monday_simulator : ContributionSimulator :=
  mk_ContributionSimulator (PyDate.ymd 2022 1 3) (PyDate.ymd 2022 1 3) medium_profile None.

Definition monday_script : list Z :=
  [10; 3; 50; 5; 10; 30; 15; 2; 10; 20; 40; 9; 10; 5; 59; 80; 3; 4; 5; 50; 1; 2; 20; 1; 2; 3; 4].

Definition monday_events : list Commit :=
  Eval vm_compute in
    match simulate monday_simulator monday_script with
    | Returned (evs, _) => evs
    | _ => []
    end.

Definition monday_final : list Z :=
  Eval vm_compute in
    match simulate monday_simulator monday_script with
    | Returned (_, g) => g
    | _ => []
    end.

(** The same day with activation probability 1 and burst probability 0. *)
Definition monday_always_active : ContributionSimulator :=
  mk_ContributionSimulator (PyDate.ymd 2022 1 3) (PyDate.ymd 2022 1 3) always_active_profile None.

(** Saturday 2022-01-01 with activation probability 1: the weekend
    reduction of 0.5 still applies. *)
Definition saturday_always_active : ContributionSimulator :=
  mk_ContributionSimulator (PyDate.ymd 2022 1 1) (PyDate.ymd 2022 1 1) always_active_profile None.

(** Saturday 2022-01-01 with activation probability 1, burst probability
    0 and no weekend reduction (a factor of 1). *)
Definition full_weekend_config : Config :=
  mk_Config 1 1 3 8 0 2 8 22.

Definition saturday_full_weekend : ContributionSimulator :=
  mk_ContributionSimulator (PyDate.ymd 2022 1 1) (PyDate.ymd 2022 1 1)
    (mk_ContributionProfile full_weekend_config "medium") None.

(** A reversed range, as in the specification's example. *)
Definition reversed_simulator : ContributionSimulator :=
  mk_ContributionSimulator (PyDate.ymd 2022 2 1) (PyDate.ymd 2022 1 1) medium_profile (Some 42).

(** The time fields every [datetime] object has in range. *)
Definition valid_datetime (dt : datetime) : Prop :=
  0 <= dt_hour dt <= 23 /\ 0 <= dt_minute dt <= 59 /\ 0 <= dt_second dt <= 59.

(** The weekday buckets have the keys 0..6 and the hour buckets 0..23. *)
Definition bucket_keys (b : Buckets) : Prop :=
  (forall i, is_Some (by_weekday b !! i) <-> 0 <= i < 7) /\
  (forall i, is_Some (by_hour b !! i) <-> 0 <= i < 24).

(** ** Further predicates and functions used in the statements *)

(** The number of events of a list that satisfy a test. *)
Definition count_if (p : Commit -> bool) (l : list Commit) : Z :=
  len (List.filter p l).

Definition commit_on_day (d : PyDate.date) (c : Commit) : bool :=
  dt_date (timestamp c) =? d.

Definition commit_at_hour (h : Z) (c : Commit) : bool :=
  dt_hour (timestamp c) =? h.

Definition commit_on_weekday (w : Z) (c : Commit) : bool :=
  PyDate.weekday (dt_date (timestamp c)) =? w.

(** The number of days of the range of a simulator. *)
Definition days_in_range (self : ContributionSimulator) : Z :=
  Z.max 0 (end_date self + 1 - start_date self).

(** The same simulator on another range of days. *)
Definition with_range (self : ContributionSimulator) (first last : PyDate.date)
    : ContributionSimulator :=
  mk_ContributionSimulator first last (profile self) (seed self).

(** The last character of a string is a space. *)
Fixpoint ends_with_space (s : string) : bool :=
  match s with
  | EmptyString => false
  | String c EmptyString => Ascii.eqb c " "%char
  | String _ r => ends_with_space r
  end.

(** An event as the engine builds them: time fields in range and a label
    built around an action word and an object word. *)
Definition well_formed_commit (c : Commit) : Prop :=
  valid_datetime (timestamp c) /\ action_object_label (message c).

(** A profile that never activates: [medium] with a daily probability
    of 0. *)
Definition never_active_config : Config :=
  mk_Config 0 (5 # 10) 3 8 (1 # 10) 2 8 22.

Definition never_active_simulator : ContributionSimulator :=
  mk_ContributionSimulator (PyDate.ymd 2022 1 1) (PyDate.ymd 2022 1 31)
    (mk_ContributionProfile never_active_config "medium") None.

(** The keys of the [by_weekday] entry of the summary, Monday first. *)
Definition weekday_names : list string :=
  ["Mon"; "Tue"; "Wed"; "Thu"; "Fri"; "Sat"; "Sun"]%string.

(** The days on which a list of events has at least one event. *)
Definition active_dates (commits : list Commit) : gset Z :=
  list_to_set (map (fun c => dt_date (timestamp c)) commits).

(** The buckets [get_stats] starts from. *)
Definition initial_buckets : Buckets :=
  mk_Buckets ∅ (zero_buckets 7) (zero_buckets 24).

(** A profile whose active hours are an empty range: [medium] with the
    two bounds exchanged. *)
Definition empty_hours_config : Config :=
  mk_Config (7 # 10) (5 # 10) 3 8 (1 # 10) 2 22 8.

Definition empty_hours_simulator : ContributionSimulator :=
  mk_ContributionSimulator (PyDate.ymd 2022 1 3) (PyDate.ymd 2022 1 3)
    (mk_ContributionProfile empty_hours_config "medium") None.

(** The last representable day, and three days of January 2022. *)
Definition last_day_simulator : ContributionSimulator :=
  mk_ContributionSimulator (PyDate.ymd 9999 12 31) (PyDate.ymd 9999 12 31) medium_profile None.

Definition three_day_simulator : ContributionSimulator :=
  mk_ContributionSimulator (PyDate.ymd 2022 1 3) (PyDate.ymd 2022 1 5) medium_profile None.

(** The events of the Monday run with the first two exchanged. *)
Definition monday_events_swapped : list Commit :=
  Eval vm_compute in
    match monday_events with
    | a :: b :: r => b :: a :: r
    | l => l
    end.

(** ** [generate_contributions] of [generate_commits.py]

    The function schedules the commits with a [ContributionSimulator],
    reads three fields of the summary for its report and then, unless it
    is a dry run, creates one git commit per event.  Creating a commit is
    input and output on the repository: it is a parameter here, a step on
    a state [W] of the outside world that tells whether the call returned
    ([true]) or raised an exception ([false]).  The [print] calls are not
    modelled. *)

Section Materialize.
Context {G W : Type} {RG : RandomGen G}.
Variable create_commit : string -> datetime -> string -> Z -> W -> bool * W.

(** The loop [for i, commit in enumerate(commits, 1)]: an exception of
    [create_commit] is caught and the loop goes on with the next event. *)
Fixpoint create_commits (repo_path : string) (commits : list Commit) (i : Z) (w : W) : W :=
  match commits with
  | [] => w
  | commit :: rest =>
      let (_, w') := create_commit repo_path (timestamp commit) (message commit) i w in
      create_commits repo_path rest (i + 1) w'
  end.

(** [generate_contributions], given dates (a [datetime] argument is first
    reduced to its date).  The result is the returned count with the
    generator and the world it leaves. *)
Definition generate_contributions (today : PyDate.date) (repo_path : string)
    (start_date : PyDate.date) (end_date : option PyDate.date) (intensity : string)
    (seed : option Z) (dry_run : bool) (g : G) (w : W) : outcome (Z * (G * W)) :=
  let end_ := match end_date with Some e => e | None => today end in
  match run_simulation today start_date (Some end_) intensity seed g with
  | Returned (commits, g') =>
      stats <~ get_stats commits;;
      _ <~ stats_field stats "total_commits";;
      _ <~ stats_field stats "active_days";;
      _ <~ stats_field stats "avg_commits_per_active_day";;
      if dry_run then Returned (len commits, (g', w))
      else Returned (len commits, (g', create_commits repo_path commits 1 w))
  | Raised e => Raised e
  | Exhausted => Exhausted
  end.

End Materialize.

(** A repository on which every commit fails; the world is the log of the
    attempts. *)
Definition failing_create_commit (repo_path : string) (ts : datetime) (msg : string)
    (i : Z) (w : list Z) : bool * list Z :=
  (false, w ++ [i]).

(** * Properties *)

(** ** Rationals, dates and datetimes *)

Lemma Qltb_lt (x y : Q) : Qltb x y = true <-> (x < y)%Q.
Proof.
  unfold Qltb. rewrite negb_true_iff. split.
  - intros Hb. apply Qnot_le_lt. intros Hle.
    apply Qle_bool_iff in Hle. congruence.
  - intros Hlt. destruct (Qle_bool y x) eqn:Hb; [|reflexivity].
    apply Qle_bool_iff in Hb. exfalso. exact (Qlt_not_le _ _ Hlt Hb).
Qed.

Lemma int_of_float_ge_1 (x : Q) : (1 <= x)%Q -> 1 <= int_of_float x.
Proof.
  destruct x as [n d]. unfold Qle, int_of_float. simpl. intros H.
  apply Z.quot_le_lower_bound; lia.
Qed.

(** Turns boolean comparisons in the hypotheses into propositions. *)
Ltac zbool :=
  repeat match goal with
  | H : (_ && _) = true |- _ => apply andb_true_iff in H; destruct H
  | H : (_ && _) = false |- _ => apply andb_false_iff in H
  | H : (_ || _) = true |- _ => apply orb_true_iff in H
  | H : (_ || _) = false |- _ => apply orb_false_iff in H; destruct H
  | H : negb _ = true |- _ => apply negb_true_iff in H
  | H : negb _ = false |- _ => apply negb_false_iff in H
  | H : (_ <=? _) = true |- _ => apply Z.leb_le in H
  | H : (_ <=? _) = false |- _ => apply Z.leb_gt in H
  | H : (_ <? _) = true |- _ => apply Z.ltb_lt in H
  | H : (_ <? _) = false |- _ => apply Z.ltb_ge in H
  | H : (_ =? _) = true |- _ => apply Z.eqb_eq in H
  | H : (_ =? _) = false |- _ => apply Z.eqb_neq in H
  end.

Lemma weekday_range (d : PyDate.date) : 0 <= PyDate.weekday d < 7.
Proof. unfold PyDate.weekday. apply Z.mod_pos_bound. lia. Qed.

Lemma date_max_is_9999_12_31 : PyDate.ymd 9999 12 31 = PyDate.MAXORDINAL.
Proof. reflexivity. Qed.

Lemma add_days_Returned (d n o : Z) :
  PyDate.add_days d n = Returned o -> o = d + n /\ 1 <= o <= PyDate.MAXORDINAL.
Proof.
  unfold PyDate.add_days. intros H.
  destruct ((0 <? d + n) && (d + n <=? PyDate.MAXORDINAL)) eqn:E; [|discriminate].
  injection H as <-. zbool. lia.
Qed.

Lemma datetime_new_Returned (d h m s : Z) (dt : datetime) :
  datetime_new d h m s = Returned dt ->
  dt = mk_datetime d h m s /\ 0 <= h <= 23 /\ 0 <= m <= 59 /\ 0 <= s <= 59.
Proof.
  unfold datetime_new. intros H.
  destruct ((0 <=? h) && (h <=? 23)) eqn:Eh; simpl in H; [|discriminate].
  destruct ((0 <=? m) && (m <=? 59)) eqn:Em; simpl in H; [|discriminate].
  destruct ((0 <=? s) && (s <=? 59)) eqn:Es; simpl in H; [|discriminate].
  injection H as <-. zbool. split; [reflexivity | lia].
Qed.

Lemma datetime_new_valid (d h m s : Z) :
  0 <= h <= 23 -> 0 <= m <= 59 -> 0 <= s <= 59 ->
  datetime_new d h m s = Returned (mk_datetime d h m s).
Proof.
  intros Hh Hm Hs. unfold datetime_new.
  replace ((0 <=? h) && (h <=? 23)) with true by (symmetry; apply andb_true_iff; lia).
  replace ((0 <=? m) && (m <=? 59)) with true by (symmetry; apply andb_true_iff; lia).
  replace ((0 <=? s) && (s <=? 59)) with true by (symmetry; apply andb_true_iff; lia).
  reflexivity.
Qed.

(** ** The monad *)

Lemma bind_Returned {G A B : Type} (m : M G A) (k : A -> M G B) (g : G) (r : B * G) :
  bind m k g = Returned r ->
  exists a g', m g = Returned (a, g') /\ k a g' = Returned r.
Proof.
  unfold bind. destruct (m g) as [[a g']| |]; try discriminate.
  intros H. exists a, g'. split; [reflexivity | exact H].
Qed.

Lemma bind_step {G A B : Type} (m : M G A) (k : A -> M G B) (g g' : G) (a : A) :
  m g = Returned (a, g') -> bind m k g = k a g'.
Proof. unfold bind. intros ->. reflexivity. Qed.

Lemma lift_Returned {G A : Type} (o : outcome A) (g : G) (r : A * G) :
  lift o g = Returned r -> o = Returned (fst r) /\ snd r = g.
Proof.
  unfold lift. destruct o; try discriminate. intros H. injection H as <-. auto.
Qed.

Lemma ret_Returned {G A : Type} (a : A) (g : G) (r : A * G) :
  ret a g = Returned r -> r = (a, g).
Proof. unfold ret. intros H. injection H as <-. reflexivity. Qed.

(** Splits a hypothesis [bind m k g = Returned r] into the two calls. *)
Tactic Notation "bind_inv" hyp(H) "as" ident(a) ident(g) ident(H1) :=
  apply bind_Returned in H; destruct H as (a & g & H1 & H).

Section RandomFacts.
Context {G : Type} {RG : RandomGen G}.

Lemma random_total (g : G) :
  exists u g', random g = Returned (u, g') /\ (0 <= u)%Q /\ (u < 1)%Q.
Proof.
  unfold random. pose proof (rng_random_unit g) as Hu.
  destruct (rng_random g) as [u g']. exists u, g'. simpl in Hu. tauto.
Qed.

Lemma random_Returned (g g' : G) (u : Q) :
  random g = Returned (u, g') -> (0 <= u)%Q /\ (u < 1)%Q.
Proof.
  intros H. destruct (random_total g) as (u' & g'' & E & Hu).
  rewrite E in H. injection H as <- <-. exact Hu.
Qed.

Lemma gauss_total (mu sigma : Q) (g : G) :
  exists x g', gauss mu sigma g = Returned (x, g').
Proof. unfold gauss. destruct (rng_gauss mu sigma g) as [x g']. eauto. Qed.

Lemma randint_Returned (a b h : Z) (g g' : G) :
  randint a b g = Returned (h, g') -> a <= h <= b.
Proof.
  unfold randint. destruct (0 <? b + 1 - a) eqn:E; [|discriminate].
  apply Z.ltb_lt in E. pose proof (rng_randbelow_range (b + 1 - a) g E) as Hr.
  destruct (rng_randbelow (b + 1 - a) g) as [r g1]. simpl in Hr.
  intros H. injection H as <- <-. lia.
Qed.

Lemma randint_total (a b : Z) (g : G) :
  a <= b -> exists h g', randint a b g = Returned (h, g') /\ a <= h <= b.
Proof.
  intros Hab. unfold randint.
  replace (0 <? b + 1 - a) with true by (symmetry; apply Z.ltb_lt; lia).
  pose proof (rng_randbelow_range (b + 1 - a) g ltac:(lia)) as Hr.
  destruct (rng_randbelow (b + 1 - a) g) as [r g1]. simpl in Hr.
  exists (a + r), g1. split; [reflexivity | lia].
Qed.

Lemma randint_empty (a b : Z) (g : G) : b < a -> randint a b g = Raised ValueError.
Proof.
  intros Hab. unfold randint.
  replace (0 <? b + 1 - a) with false by (symmetry; apply Z.ltb_ge; lia).
  reflexivity.
Qed.

Lemma choice_total {A : Type} (seq : list A) (g : G) :
  seq <> [] -> exists x g', choice seq g = Returned (x, g') /\ In x seq.
Proof.
  intros Hne. destruct seq as [|y seq']; [congruence|].
  unfold choice.
  pose proof (rng_randbelow_range (Z.of_nat (length (y :: seq'))) g) as Hr.
  destruct (rng_randbelow (Z.of_nat (length (y :: seq'))) g) as [i g1].
  simpl fst in Hr. specialize (Hr ltac:(simpl; lia)).
  destruct (nth_error (y :: seq') (Z.to_nat i)) as [x|] eqn:E.
  - exists x, g1. split; [reflexivity|]. eapply nth_error_In; eauto.
  - apply nth_error_None in E. lia.
Qed.

End RandomFacts.

(** ** [ContributionProfile] *)

Lemma PROFILES_lookup (name : string) (c : Config) :
  PROFILES !! name = Some c ->
  (name = "light"%string /\ c = light_config) \/
  (name = "medium"%string /\ c = medium_config) \/
  (name = "heavy"%string /\ c = heavy_config).
Proof.
  unfold PROFILES. intros H.
  destruct (decide (name = "light"%string)) as [->|N1].
  { rewrite lookup_insert_eq in H. injection H as <-. auto. }
  rewrite lookup_insert_ne in H by congruence.
  destruct (decide (name = "medium"%string)) as [->|N2].
  { rewrite lookup_insert_eq in H. injection H as <-. auto. }
  rewrite lookup_insert_ne in H by congruence.
  destruct (decide (name = "heavy"%string)) as [->|N3].
  { rewrite lookup_insert_eq in H. injection H as <-. auto. }
  rewrite lookup_insert_ne in H by congruence.
  rewrite lookup_empty in H. discriminate.
Qed.

Lemma PROFILES_canonical (name : string) :
  canonical name <-> is_Some (PROFILES !! name).
Proof.
  split.
  - intros [-> | [-> | ->]]; eexists; reflexivity.
  - intros [c Hc]. apply PROFILES_lookup in Hc. unfold canonical. tauto.
Qed.

Lemma get_config_parameter (self : ContributionProfile) (key : string) :
  In key parameter_keys -> exists v, get_config self key = Returned v.
Proof.
  unfold parameter_keys, get_config, config_dict. simpl.
  intros [<- | [<- | [<- | [<- | [<- | [<- | [<- | [<- | []]]]]]]]];
    eexists; reflexivity.
Qed.

(** C8. Building a profile fails (with the [ValueError] that
    [ContributionProfile.__init__] raises for a configuration error) exactly
    when the name is not one of light, medium, heavy.  For these three names
    it returns a profile carrying the name and its [PROFILES] entry, and
    [get_config] returns a value for each of the eight parameter keys.  Both
    are pure functions: they neither read nor change the generator. *)
Theorem profile_init_fails_iff_not_canonical (name : string) :
  (ContributionProfile_init name = Raised ValueError <-> ~ canonical name) /\
  (canonical name ->
   exists self,
     ContributionProfile_init name = Returned self /\
     intensity self = name /\
     PROFILES !! name = Some (config self) /\
     forall key, In key parameter_keys -> exists v, get_config self key = Returned v).
Proof.
  split.
  - rewrite PROFILES_canonical. unfold ContributionProfile_init.
    destruct (PROFILES !! name) as [c|] eqn:E.
    + split; [discriminate|]. intros Hn. exfalso. apply Hn. eauto.
    + split; [|reflexivity]. intros _ [c Hc]. discriminate.
  - intros Hc. apply PROFILES_canonical in Hc. destruct Hc as [c Hc].
    exists (mk_ContributionProfile c name). unfold ContributionProfile_init.
    rewrite Hc. repeat split; try reflexivity.
    intros key Hk. apply get_config_parameter. exact Hk.
Qed.

(** ** [CommitMessageGenerator] *)

Lemma append_cons (x : ascii) (a b : string) : String x a +:+ b = String x (a +:+ b).
Proof. reflexivity. Qed.

Lemma append_empty_l (a : string) : EmptyString +:+ a = a.
Proof. reflexivity. Qed.

Lemma append_assoc (a b c : string) : (a +:+ b) +:+ c = a +:+ b +:+ c.
Proof.
  induction a as [|x a IH]; [reflexivity|].
  rewrite !append_cons, IH. reflexivity.
Qed.

Lemma append_empty_r (a : string) : a +:+ EmptyString = a.
Proof.
  induction a as [|x a IH]; [reflexivity|].
  rewrite append_cons, IH. reflexivity.
Qed.

Lemma append_length (a b : string) :
  String.length (a +:+ b) = (String.length a + String.length b)%nat.
Proof.
  induction a as [|x a IH]; [reflexivity|].
  rewrite append_cons. simpl. rewrite IH. reflexivity.
Qed.

Lemma ACTIONS_nonempty (a : string) : In a ACTIONS -> a <> EmptyString.
Proof.
  unfold ACTIONS. simpl. intros H.
  repeat (destruct H as [<- | H]; [discriminate|]). destruct H.
Qed.

Lemma capitalize_nonempty (a : string) : a <> EmptyString -> capitalize a <> EmptyString.
Proof. destruct a; [congruence | discriminate]. Qed.

Lemma action_object_label_nonempty (msg : string) :
  action_object_label msg -> msg <> EmptyString.
Proof.
  intros (pre & action & obj & post & -> & _ & _) E.
  apply (f_equal String.length) in E.
  rewrite !append_length in E. simpl in E. lia.
Qed.

Section GeneratorFacts.
Context {G : Type} {RG : RandomGen G}.

(** Every call of [generate] returns a label built around an action word
    and an object word, whatever the generator state. *)
Lemma generate_label (g : G) :
  exists msg g', generate g = Returned (msg, g') /\ action_object_label msg.
Proof.
  unfold generate.
  destruct (random_total g) as (style & g1 & E1 & _).
  rewrite (bind_step _ _ _ _ _ E1).
  destruct (Qltb style (4 # 10)).
  - destruct (choice_total PREFIXES g1 ltac:(discriminate)) as (prefix & g2 & E2 & _).
    rewrite (bind_step _ _ _ _ _ E2).
    destruct (choice_total ACTIONS g2 ltac:(discriminate)) as (action & g3 & E3 & Ha).
    rewrite (bind_step _ _ _ _ _ E3).
    destruct (choice_total OBJECTS g3 ltac:(discriminate)) as (obj & g4 & E4 & Ho).
    rewrite (bind_step _ _ _ _ _ E4).
    destruct (choice_total DETAILS g4 ltac:(discriminate)) as (detail & g5 & E5 & _).
    rewrite (bind_step _ _ _ _ _ E5).
    destruct (truthy detail); eexists; exists g5; (split; [reflexivity|]).
    + exists (prefix +:+ ": "), action, obj, (" " +:+ detail).
      rewrite append_assoc. auto.
    + exists (prefix +:+ ": "), action, obj, EmptyString.
      rewrite append_assoc, append_empty_r. auto.
  - destruct (Qltb style (7 # 10)).
    + destruct (choice_total ACTIONS g1 ltac:(discriminate)) as (action & g2 & E2 & Ha).
      rewrite (bind_step _ _ _ _ _ E2).
      destruct (choice_total OBJECTS g2 ltac:(discriminate)) as (obj & g3 & E3 & Ho).
      rewrite (bind_step _ _ _ _ _ E3).
      eexists; exists g3; (split; [reflexivity|]).
      exists EmptyString, (capitalize action), obj, EmptyString.
      rewrite append_empty_r, append_empty_l. eauto 6.
    + destruct (choice_total ACTIONS g1 ltac:(discriminate)) as (action & g2 & E2 & Ha).
      rewrite (bind_step _ _ _ _ _ E2).
      destruct (choice_total OBJECTS g2 ltac:(discriminate)) as (obj & g3 & E3 & Ho).
      rewrite (bind_step _ _ _ _ _ E3).
      destruct (choice_total DETAILS g3 ltac:(discriminate)) as (detail & g4 & E4 & _).
      rewrite (bind_step _ _ _ _ _ E4).
      destruct (truthy detail); eexists; exists g4; (split; [reflexivity|]).
      * exists EmptyString, action, obj, (" " +:+ detail).
        rewrite append_empty_l. auto.
      * exists EmptyString, action, obj, EmptyString.
        rewrite append_empty_r, append_empty_l. auto.
Qed.

(** C10. From every generator state [generate] returns, and the label it
    returns is not the empty string: in each of the three templates it
    contains an action word (capitalised in the second template), a space
    and an object word. *)
Theorem generate_returns_nonempty (g : G) :
  exists msg g',
    generate g = Returned (msg, g') /\ msg <> EmptyString /\ action_object_label msg.
Proof.
  destruct (generate_label g) as (msg & g' & E & Hl).
  exists msg, g'. split; [exact E|]. split; [|exact Hl].
  apply action_object_label_nonempty. exact Hl.
Qed.

End GeneratorFacts.

(** ** Order on datetimes and sorting *)

Lemma datetime_le_iff (a b : datetime) :
  datetime_le a b <->
  dt_date a < dt_date b \/
  (dt_date a = dt_date b /\
   (dt_hour a < dt_hour b \/
    (dt_hour a = dt_hour b /\
     (dt_minute a < dt_minute b \/
      (dt_minute a = dt_minute b /\ dt_second a <= dt_second b))))).
Proof.
  unfold datetime_le, datetime_ltb.
  destruct (dt_date b <? dt_date a) eqn:E1;
  destruct (dt_date a <? dt_date b) eqn:E2;
  destruct (dt_hour b <? dt_hour a) eqn:E3;
  destruct (dt_hour a <? dt_hour b) eqn:E4;
  destruct (dt_minute b <? dt_minute a) eqn:E5;
  destruct (dt_minute a <? dt_minute b) eqn:E6;
  destruct (dt_second b <? dt_second a) eqn:E7;
  zbool; split; intros H; try discriminate; try reflexivity; lia.
Qed.

#[export] Instance datetime_le_trans : Transitive datetime_le.
Proof. intros a b c. rewrite !datetime_le_iff. lia. Qed.

Lemma datetime_ltb_le (a b : datetime) : datetime_ltb a b = true -> datetime_le a b.
Proof.
  intros H. destruct (datetime_ltb b a) eqn:E; [|exact E].
  exfalso. revert H E. unfold datetime_ltb.
  destruct (dt_date b <? dt_date a) eqn:E1;
  destruct (dt_date a <? dt_date b) eqn:E2;
  destruct (dt_hour b <? dt_hour a) eqn:E3;
  destruct (dt_hour a <? dt_hour b) eqn:E4;
  destruct (dt_minute b <? dt_minute a) eqn:E5;
  destruct (dt_minute a <? dt_minute b) eqn:E6;
  zbool; intros; try discriminate; zbool; lia.
Qed.

Lemma datetime_le_earlier_day (a b : datetime) :
  dt_date a < dt_date b -> datetime_le a b.
Proof. intros H. apply datetime_le_iff. lia. Qed.

Lemma sort_insert_Forall (P : datetime -> Prop) (x : datetime) (l : list datetime) :
  P x -> Forall P l -> Forall P (sort_insert x l).
Proof.
  intros Hx Hl. induction Hl as [|y l Hy Hl IH]; simpl.
  - constructor; [exact Hx | constructor].
  - destruct (datetime_ltb y x); constructor; auto.
Qed.

Lemma sort_insert_sorted (x : datetime) (l : list datetime) :
  StronglySorted datetime_le l -> StronglySorted datetime_le (sort_insert x l).
Proof.
  intros Hl. induction Hl as [|y l Hl IH Hy]; simpl.
  - constructor; constructor.
  - destruct (datetime_ltb y x) eqn:E.
    + constructor; [exact IH|].
      apply sort_insert_Forall; [apply datetime_ltb_le; exact E | exact Hy].
    + constructor; [constructor; assumption|].
      constructor; [exact E|].
      eapply Forall_impl; [exact Hy|].
      intros z Hz. simpl in Hz. transitivity y; [exact E | exact Hz].
Qed.

Lemma list_sort_sorted (l : list datetime) : StronglySorted datetime_le (list_sort l).
Proof.
  induction l as [|x l IH]; simpl; [constructor | apply sort_insert_sorted; exact IH].
Qed.

Lemma list_sort_Forall (P : datetime -> Prop) (l : list datetime) :
  Forall P l -> Forall P (list_sort l).
Proof.
  intros Hl. induction Hl as [|x l Hx Hl IH]; simpl;
    [constructor | apply sort_insert_Forall; assumption].
Qed.

Lemma sort_insert_length (x : datetime) (l : list datetime) :
  length (sort_insert x l) = S (length l).
Proof.
  induction l as [|y l IH]; simpl; [reflexivity|].
  destruct (datetime_ltb y x); simpl; [rewrite IH|]; reflexivity.
Qed.

Lemma list_sort_length (l : list datetime) : length (list_sort l) = length l.
Proof.
  induction l as [|x l IH]; simpl; [reflexivity|].
  rewrite sort_insert_length, IH. reflexivity.
Qed.

Lemma StronglySorted_filter {A : Type} (R : A -> A -> Prop) (f : A -> bool) (l : list A) :
  StronglySorted R l -> StronglySorted R (List.filter f l).
Proof.
  intros Hl. induction Hl as [|x l Hl IH Hx]; simpl; [constructor|].
  destruct (f x); [|exact IH].
  constructor; [exact IH|].
  rewrite List.Forall_forall in *. intros y Hy.
  apply List.filter_In in Hy. apply Hx. tauto.
Qed.

(** ** The schedule engine *)

Section SimulatorFacts.
Context {G : Type} {RG : RandomGen G}.

Lemma biased_hour_loop_range (fuel : nat) (attempts start end_ h : Z) (g g' : G) :
  biased_hour_loop fuel attempts start end_ g = Returned (h, g') ->
  start <= h <= end_.
Proof.
  revert attempts g. induction fuel as [|fuel IH]; intros attempts g H; simpl in H.
  - destruct (attempts <? 10); [discriminate|].
    eapply randint_Returned; eauto.
  - destruct (attempts <? 10); [|eapply randint_Returned; eauto].
    bind_inv H as hour g1 H1. pose proof (randint_Returned _ _ _ _ _ H1) as Hr.
    destruct (peak_hour hour); bind_inv H as u g2 H2.
    + destruct (Qltb u (7 # 10)); [apply ret_Returned in H; congruence | eauto].
    + destruct (Qltb u (4 # 10)); [apply ret_Returned in H; congruence | eauto].
Qed.

Lemma biased_hour_loop_total (fuel : nat) (attempts start end_ : Z) (g : G) :
  start <= end_ -> 10 - attempts <= Z.of_nat fuel ->
  exists h g', biased_hour_loop fuel attempts start end_ g = Returned (h, g').
Proof.
  intros Hse. revert attempts g.
  induction fuel as [|fuel IH]; intros attempts g Hf; simpl.
  - replace (attempts <? 10) with false by (symmetry; apply Z.ltb_ge; lia).
    destruct (randint_total start end_ g Hse) as (h & g' & E & _). eauto.
  - destruct (attempts <? 10) eqn:Ea.
    2:{ destruct (randint_total start end_ g Hse) as (h & g' & E & _). eauto. }
    destruct (randint_total start end_ g Hse) as (h & g1 & E1 & _).
    rewrite (bind_step _ _ _ _ _ E1).
    destruct (random_total g1) as (u & g2 & E2 & _).
    destruct (peak_hour h); rewrite (bind_step _ _ _ _ _ E2).
    + destruct (Qltb u (7 # 10)); [unfold ret; eauto | apply IH; lia].
    + destruct (Qltb u (4 # 10)); [unfold ret; eauto | apply IH; lia].
Qed.

Lemma biased_hour_range (start end_ h : Z) (g g' : G) :
  _biased_hour start end_ g = Returned (h, g') -> start <= h <= end_.
Proof. apply biased_hour_loop_range. Qed.

Lemma biased_hour_total (start end_ : Z) (g : G) :
  start <= end_ ->
  exists h g', _biased_hour start end_ g = Returned (h, g') /\ start <= h <= end_.
Proof.
  intros Hse.
  destruct (biased_hour_loop_total 10 0 start end_ g Hse ltac:(simpl; lia)) as (h & g' & E).
  exists h, g'. split; [exact E|]. eapply biased_hour_range; eauto.
Qed.

Lemma commit_times_loop_spec (date : PyDate.date) (lo hi : Z) (n : nat)
    (times l : list datetime) (g g' : G) :
  commit_times_loop date lo hi n times g = Returned (l, g') ->
  Forall (in_day date lo hi) times ->
  Forall (in_day date lo hi) l /\ length l = (length times + n)%nat.
Proof.
  revert times g. induction n as [|n IH]; intros times g H Ht; simpl in H.
  - apply ret_Returned in H. injection H as <- <-. split; [exact Ht | lia].
  - bind_inv H as hour g1 H1. bind_inv H as minute g2 H2.
    bind_inv H as second g3 H3. bind_inv H as dt g4 H4.
    apply lift_Returned in H4. simpl in H4. destruct H4 as [Hd ->].
    apply datetime_new_Returned in Hd. destruct Hd as [-> _].
    apply biased_hour_range in H1.
    apply IH in H.
    + rewrite length_app in H. simpl in H. split; [tauto | lia].
    + apply Forall_app. split; [exact Ht|].
      constructor; [|constructor]. split; [reflexivity | exact H1].
Qed.

Lemma commit_times_loop_total (date : PyDate.date) (lo hi : Z) (n : nat)
    (times : list datetime) (g : G) :
  0 <= lo -> lo <= hi -> hi <= 23 ->
  exists l g', commit_times_loop date lo hi n times g = Returned (l, g').
Proof.
  intros H0 Hlh H23. revert times g.
  induction n as [|n IH]; intros times g; simpl; [unfold ret; eauto|].
  destruct (biased_hour_total lo hi g Hlh) as (h & g1 & E1 & Hh).
  rewrite (bind_step _ _ _ _ _ E1).
  destruct (randint_total 0 59 g1 ltac:(lia)) as (m & g2 & E2 & Hm).
  rewrite (bind_step _ _ _ _ _ E2).
  destruct (randint_total 0 59 g2 ltac:(lia)) as (s & g3 & E3 & Hs).
  rewrite (bind_step _ _ _ _ _ E3).
  unfold bind at 1, lift.
  rewrite (datetime_new_valid date h m s) by lia.
  apply IH.
Qed.

Lemma generate_commit_times_spec (self : ContributionSimulator) (date : PyDate.date)
    (count : Z) (l : list datetime) (g g' : G) :
  _generate_commit_times self date count g = Returned (l, g') ->
  Forall (in_day date (commit_time_start (config (profile self)))
                      (commit_time_end (config (profile self)))) l /\
  StronglySorted datetime_le l /\
  length l = Z.to_nat count.
Proof.
  unfold _generate_commit_times. intros H. bind_inv H as times g1 H1.
  apply ret_Returned in H. injection H as -> ->.
  apply commit_times_loop_spec in H1; [|constructor].
  destruct H1 as [Hf Hn]. split; [|split].
  - apply list_sort_Forall. exact Hf.
  - apply list_sort_sorted.
  - rewrite list_sort_length. simpl in Hn. exact Hn.
Qed.

Lemma commits_loop_spec (times : list datetime) (commits r : list Commit) (g g' : G) :
  commits_loop times commits g = Returned (r, g') ->
  map timestamp r = map timestamp commits ++ times.
Proof.
  revert commits g. induction times as [|dt times IH]; intros commits g H; simpl in H.
  - apply ret_Returned in H. injection H as <- <-. rewrite app_nil_r. reflexivity.
  - bind_inv H as msg g1 H1. apply IH in H. rewrite H, map_app. simpl.
    rewrite <- app_assoc. reflexivity.
Qed.

Lemma commits_loop_total (times : list datetime) (commits : list Commit) (g : G) :
  exists r g', commits_loop times commits g = Returned (r, g').
Proof.
  revert commits g. induction times as [|dt times IH]; intros commits g; simpl.
  - unfold ret. eauto.
  - destruct (generate_label g) as (msg & g1 & E & _).
    rewrite (bind_step _ _ _ _ _ E). apply IH.
Qed.

Lemma should_commit_today_total (self : ContributionSimulator) (date : PyDate.date) (g : G) :
  exists b g', _should_commit_today self date g = Returned (b, g').
Proof.
  unfold _should_commit_today.
  destruct (random_total g) as (u & g1 & E & _).
  rewrite (bind_step _ _ _ _ _ E). unfold ret. eauto.
Qed.

End SimulatorFacts.

Lemma canonical_well_formed (name : string) (c : Config) :
  PROFILES !! name = Some c -> well_formed c.
Proof.
  intros H. apply PROFILES_lookup in H.
  destruct H as [[_ ->] | [[_ ->] | [_ ->]]];
    unfold well_formed, Qle; simpl; lia.
Qed.

Lemma int_of_float_scaled (n : Z) (q : Q) :
  1 <= n -> (1 <= q)%Q -> 1 <= int_of_float (inject_Z n * q)%Q.
Proof.
  intros Hn Hq. apply int_of_float_ge_1.
  destruct q as [a b]. unfold Qle in *. simpl in *. nia.
Qed.

Lemma volume_of_draws_range (c : Config) (x u : Q) :
  1 <= max_commits_per_day c -> (1 <= burst_multiplier c)%Q ->
  1 <= volume_of_draws c x u <= max_commits_per_day c.
Proof.
  intros Hmax Hmul. unfold volume_of_draws.
  destruct (Qltb u (burst_probability c)).
  - pose proof (int_of_float_scaled (Z.max 1 (int_of_float x)) _ ltac:(lia) Hmul). lia.
  - lia.
Qed.

Section EngineFacts.
Context {G : Type} {RG : RandomGen G}.

(** The count is the specification's volume of the two draws the call
    makes, in this order: the Gaussian draw, then the burst draw. *)
Lemma get_commit_count_draws (self : ContributionSimulator) (date : PyDate.date) (g : G) :
  let avg := avg_commits_per_day (config (profile self)) in
  let xg := rng_gauss avg (avg * (5 # 10))%Q g in
  let ug := rng_random (snd xg) in
  _get_commit_count self date g =
  Returned (volume_of_draws (config (profile self)) (fst xg) (fst ug), snd ug).
Proof.
  unfold _get_commit_count, bind, gauss, random, ret, volume_of_draws. simpl.
  destruct (rng_gauss _ _ g) as [x g1]. simpl.
  destruct (rng_random g1) as [u g2]. simpl. reflexivity.
Qed.

Lemma get_commit_count_range (self : ContributionSimulator) (date : PyDate.date)
    (count : Z) (g g' : G) :
  well_formed (config (profile self)) ->
  _get_commit_count self date g = Returned (count, g') ->
  1 <= count <= max_commits_per_day (config (profile self)).
Proof.
  intros (Hmax & Hmul & _) H. rewrite get_commit_count_draws in H.
  simpl in H. injection H as <- _. apply volume_of_draws_range; assumption.
Qed.

(** What one call of [generate_day] produces, in terms of its three
    steps. *)
Lemma generate_day_steps (self : ContributionSimulator) (date : PyDate.date)
    (evs : list Commit) (g g' : G) :
  generate_day self date g = Returned (evs, g') ->
  exists active g1,
    _should_commit_today self date g = Returned (active, g1) /\
    ((active = false /\ evs = [] /\ g' = g1) \/
     (active = true /\
      exists count g2 times g3,
        _get_commit_count self date g1 = Returned (count, g2) /\
        _generate_commit_times self date count g2 = Returned (times, g3) /\
        commits_loop times [] g3 = Returned (evs, g'))).
Proof.
  unfold generate_day. intros H. bind_inv H as active g1 H1.
  exists active, g1. split; [exact H1|].
  destruct active; simpl in H.
  - right. split; [reflexivity|].
    bind_inv H as count g2 H2. bind_inv H as times g3 H3.
    exists count, g2, times, g3. auto.
  - left. apply ret_Returned in H. injection H as -> ->. auto.
Qed.

Lemma generate_day_spec (self : ContributionSimulator) (date : PyDate.date)
    (evs : list Commit) (g g' : G) :
  generate_day self date g = Returned (evs, g') ->
  Forall (in_day date (commit_time_start (config (profile self)))
                      (commit_time_end (config (profile self)))) (map timestamp evs) /\
  StronglySorted datetime_le (map timestamp evs).
Proof.
  intros H. apply generate_day_steps in H.
  destruct H as (active & g1 & _ & [(_ & -> & _) | (_ & count & g2 & times & g3 & _ & Ht & Hc)]).
  - split; constructor.
  - apply commits_loop_spec in Hc. simpl in Hc. rewrite Hc.
    apply generate_commit_times_spec in Ht. tauto.
Qed.

(** A day that activates yields between one event and the daily cap. *)
Lemma generate_day_active_count (self : ContributionSimulator) (date : PyDate.date)
    (evs : list Commit) (g g1 g' : G) :
  well_formed (config (profile self)) ->
  _should_commit_today self date g = Returned (true, g1) ->
  generate_day self date g = Returned (evs, g') ->
  1 <= len evs <= max_commits_per_day (config (profile self)).
Proof.
  intros Hwf Ha H. apply generate_day_steps in H.
  destruct H as (active & g1' & Ha' & Hcases).
  rewrite Ha in Ha'. injection Ha' as <- <-.
  destruct Hcases as [(Hf & _) | (_ & count & g2 & times & g3 & Hc & Ht & Hl)];
    [discriminate|].
  apply get_commit_count_range in Hc; [|exact Hwf].
  apply generate_commit_times_spec in Ht. destruct Ht as (_ & _ & Hn).
  apply commits_loop_spec in Hl. simpl in Hl.
  apply (f_equal (@length datetime)) in Hl. rewrite length_map in Hl.
  unfold len. lia.
Qed.

Lemma generate_day_total (self : ContributionSimulator) (date : PyDate.date) (g : G) :
  well_formed (config (profile self)) ->
  exists evs g', generate_day self date g = Returned (evs, g').
Proof.
  intros (_ & _ & H0 & Hlh & H23). unfold generate_day.
  destruct (should_commit_today_total self date g) as (active & g1 & E1).
  rewrite (bind_step _ _ _ _ _ E1).
  destruct active; simpl; [|unfold ret; eauto].
  rewrite (bind_step _ _ _ _ _ (get_commit_count_draws self date g1)).
  cbv beta zeta.
  match goal with |- context [bind (_generate_commit_times self date ?c) _ ?g2] =>
    assert (Ht : exists times g3, _generate_commit_times self date c g2 = Returned (times, g3))
  end.
  { unfold _generate_commit_times.
    match goal with |- context [bind (commit_times_loop ?d ?lo ?hi ?n ?t) _ ?g2] =>
      destruct (commit_times_loop_total d lo hi n t g2 H0 Hlh H23) as (l & g3 & E)
    end.
    rewrite (bind_step _ _ _ _ _ E). unfold ret. eauto. }
  destruct Ht as (times & g3 & Et).
  rewrite (bind_step _ _ _ _ _ Et). apply commits_loop_total.
Qed.

End EngineFacts.

(** ** The day loop of [simulate] *)

Section SimulateFacts.
Context {G : Type} {RG : RandomGen G}.

(** A reversed range: the loop test fails at once, whatever the fuel. *)
Lemma simulate_loop_past_end (self : ContributionSimulator) (fuel : nat)
    (current : PyDate.date) (acc : list Commit) (g : G) :
  end_date self < current ->
  simulate_loop self fuel current acc g = Returned (acc, g).
Proof.
  intros H. destruct fuel; simpl;
    replace (current <=? end_date self) with false
      by (symmetry; apply Z.leb_gt; exact H); reflexivity.
Qed.

(** The invariant of the loop: the accumulated events are in timestamp
    order, lie on days of the range before [current], and have their hour
    in the active range. *)
Lemma simulate_loop_spec (self : ContributionSimulator) (first : PyDate.date)
    (fuel : nat) (current : PyDate.date) (acc r : list Commit) (g g' : G) :
  simulate_loop self fuel current acc g = Returned (r, g') ->
  first <= current ->
  StronglySorted datetime_le (map timestamp acc) ->
  Forall (event_in self first (end_date self)) acc ->
  Forall (fun c => dt_date (timestamp c) < current) acc ->
  StronglySorted datetime_le (map timestamp r) /\
  Forall (event_in self first (end_date self)) r.
Proof.
  revert current acc g. induction fuel as [|fuel IH];
    intros current acc g H Hfc Hs Hin Hlt; simpl in H.
  - destruct (current <=? end_date self); [discriminate|].
    apply ret_Returned in H. injection H as -> ->. auto.
  - destruct (current <=? end_date self) eqn:Ece.
    2:{ apply ret_Returned in H. injection H as -> ->. auto. }
    zbool. bind_inv H as day g1 Hday. bind_inv H as next g2 Hnext.
    apply lift_Returned in Hnext. simpl in Hnext. destruct Hnext as [Hnext ->].
    apply add_days_Returned in Hnext. destruct Hnext as [-> _].
    apply generate_day_spec in Hday. destruct Hday as [Hd Hds].
    rewrite List.Forall_map in Hd.
    apply IH in H; [exact H | lia | | |].
    + rewrite map_app. apply StronglySorted_app.
      split; [|split; [exact Hs | exact Hds]].
      intros x1 x2 Hx1 Hx2.
      apply list_elem_of_In, in_map_iff in Hx1. destruct Hx1 as (c1 & <- & Hc1).
      apply list_elem_of_In, in_map_iff in Hx2. destruct Hx2 as (c2 & <- & Hc2).
      apply datetime_le_earlier_day.
      rewrite List.Forall_forall in Hlt, Hd.
      specialize (Hlt _ Hc1). destruct (Hd _ Hc2) as [Hc2d _]. lia.
    + apply Forall_app. split; [exact Hin|].
      eapply Forall_impl; [exact Hd|].
      intros c [Hcd Hch]. split; [lia | exact Hch].
    + apply Forall_app. split.
      * eapply Forall_impl; [exact Hlt|]. intros c Hc. simpl in Hc. lia.
      * eapply Forall_impl; [exact Hd|]. intros c [Hcd _]. lia.
Qed.

Lemma simulate_spec (self : ContributionSimulator) (evs : list Commit) (g g' : G) :
  simulate self g = Returned (evs, g') ->
  StronglySorted datetime_le (map timestamp evs) /\
  Forall (event_in self (start_date self) (end_date self)) evs.
Proof.
  unfold simulate. intros H.
  eapply simulate_loop_spec in H; [exact H | lia | constructor | constructor | constructor].
Qed.

(** The loop never runs out of fuel, and says when it returns: it does
    unless the last day of the range is [date.max], where stepping to the
    next day raises [OverflowError]. *)
Lemma simulate_loop_outcome (self : ContributionSimulator) (fuel : nat)
    (current : PyDate.date) (acc : list Commit) (g : G) :
  well_formed (config (profile self)) ->
  1 <= current -> end_date self <= PyDate.MAXORDINAL ->
  end_date self + 1 - current <= Z.of_nat fuel ->
  (end_date self < PyDate.MAXORDINAL \/ end_date self < current ->
   exists r g', simulate_loop self fuel current acc g = Returned (r, g')) /\
  (end_date self = PyDate.MAXORDINAL -> current <= end_date self ->
   simulate_loop self fuel current acc g = Raised OverflowError).
Proof.
  intros Hwf. revert current acc g. induction fuel as [|fuel IH];
    intros current acc g H1 Hmax Hfuel.
  - split.
    + intros _. rewrite simulate_loop_past_end by lia. eauto.
    + intros _ Hce. lia.
  - destruct (Z_lt_le_dec (end_date self) current) as [Hpast | Hin].
    { split; [|lia]. intros _. rewrite simulate_loop_past_end by lia. eauto. }
    simpl. replace (current <=? end_date self) with true
      by (symmetry; apply Z.leb_le; exact Hin).
    destruct (generate_day_total self current g Hwf) as (day & g1 & Eday).
    rewrite (bind_step _ _ _ _ _ Eday).
    unfold bind at 1 2, lift, PyDate.add_days.
    destruct (Z_lt_le_dec current PyDate.MAXORDINAL) as [Hlt | Hge].
    + replace ((0 <? current + 1) && (current + 1 <=? PyDate.MAXORDINAL)) with true
        by (symmetry; apply andb_true_iff; split; [apply Z.ltb_lt | apply Z.leb_le]; lia).
      destruct (IH (current + 1) (acc ++ day) g1 ltac:(lia) Hmax ltac:(lia)) as [IH1 IH2].
      split.
      * intros [Hend | Hend]; [apply IH1; left; exact Hend | lia].
      * intros Hend _.
        destruct (Z_lt_le_dec (end_date self) (current + 1)) as [Hc | Hc]; [lia|].
        apply IH2; [exact Hend | exact Hc].
    + replace ((0 <? current + 1) && (current + 1 <=? PyDate.MAXORDINAL)) with false
        by (symmetry; apply andb_false_iff; right; apply Z.leb_gt; lia).
      split; [lia | reflexivity].
Qed.

Lemma simulate_outcome (self : ContributionSimulator) (g : G) :
  well_formed (config (profile self)) ->
  1 <= start_date self -> end_date self <= PyDate.MAXORDINAL ->
  (end_date self < PyDate.MAXORDINAL \/ end_date self < start_date self ->
   exists evs g', simulate self g = Returned (evs, g')) /\
  (end_date self = PyDate.MAXORDINAL -> start_date self <= end_date self ->
   simulate self g = Raised OverflowError).
Proof.
  intros Hwf H1 Hmax. unfold simulate.
  apply simulate_loop_outcome; try assumption. lia.
Qed.

End SimulateFacts.

(** ** The hour sampler *)

Section HourSamplerFacts.
Context {G : Type} {RG : RandomGen G}.

Lemma biased_hour_loop_redraw (fuel : nat) (attempts start end_ : Z) (g : G) :
  attempts <= 10 -> Z.of_nat fuel = 10 - attempts ->
  biased_hour_loop fuel attempts start end_ g = redraw_loop fuel start end_ g.
Proof.
  revert attempts g. induction fuel as [|fuel IH]; intros attempts g Hle Hf; simpl.
  - replace (attempts <? 10) with false by (symmetry; apply Z.ltb_ge; lia).
    reflexivity.
  - replace (attempts <? 10) with true by (symmetry; apply Z.ltb_lt; lia).
    unfold attempt, bind, ret.
    destruct (randint start end_ g) as [[hour g1]| |]; try reflexivity.
    destruct (peak_hour hour);
      (destruct (random g1) as [[u g2]| |]; try reflexivity; simpl;
       match goal with |- context [Qltb u ?t] => destruct (Qltb u t) end;
       [reflexivity | apply IH; lia]).
Qed.

(** C3, amended. [_biased_hour] makes up to ten attempts; an attempt draws
    a uniform hour of the active range and accepts it when the acceptance
    draw is below 0.7 in the windows 10-12 and 14-17 and below 0.4
    elsewhere.  When all ten attempts are rejected it makes one more
    uniform draw of the hour and returns that, unconditionally.  On a
    non-empty range it always returns, with an hour of the range. *)
Theorem biased_hour_is_redraw (start end_ : Z) (g : G) :
  _biased_hour start end_ g = biased_hour_redraw start end_ g /\
  (start <= end_ ->
   exists h g', _biased_hour start end_ g = Returned (h, g') /\ start <= h <= end_).
Proof.
  split.
  - unfold _biased_hour, biased_hour_redraw.
    apply biased_hour_loop_redraw; simpl; lia.
  - apply biased_hour_total.
Qed.

End HourSamplerFacts.

(** C3, counterexample.  On the range 8-22 with ten rejected candidates at
    9 o'clock, the hour returned is a new, eleventh draw (15), not the last
    candidate, and the generator has moved past that draw. *)
Lemma biased_hour_keep_last_counterexample :
  let g := [1; 99; 1; 99; 1; 99; 1; 99; 1; 99; 1; 99; 1; 99; 1; 99; 1; 99; 1; 99; 7; 5] in
  _biased_hour 8 22 g = Returned (15, [5]) /\
  biased_hour_keep_last 8 22 g = Returned (9, [7; 5]) /\
  _biased_hour 8 22 g <> biased_hour_keep_last 8 22 g.
Proof. vm_compute. repeat split; discriminate. Qed.

Lemma biased_hour_is_redraw_witness :
  8 <= 22 /\
  exists h g', _biased_hour 8 22 [1; 99; 3; 10; 7] = Returned (h, g') /\ 8 <= h <= 22.
Proof.
  split; [lia|].
  exact (proj2 (biased_hour_is_redraw 8 22 [1; 99; 3; 10; 7]) ltac:(lia)).
Defined.

(** ** The public contract of the engine *)

Section ContractFacts.
Context {G : Type} {RG : RandomGen G}.

(** C1, amended.  A reversed range is not an error: [simulate] returns the
    empty list and leaves the generator untouched.  A range with
    [start_date <= end_date] raises no range error either: for a
    well-formed profile [simulate] returns, except when [end_date] is
    [date.max], where stepping the loop date to the next day raises
    [OverflowError]. *)
Theorem simulate_range_outcomes (self : ContributionSimulator) (g : G) :
  (end_date self < start_date self -> simulate self g = Returned ([], g)) /\
  (start_date self <= end_date self ->
   well_formed (config (profile self)) ->
   PyDate.valid (start_date self) -> PyDate.valid (end_date self) ->
   (exists evs g', simulate self g = Returned (evs, g')) \/
   (end_date self = PyDate.MAXORDINAL /\ simulate self g = Raised OverflowError)).
Proof.
  split.
  - intros H. unfold simulate. apply simulate_loop_past_end. exact H.
  - intros Hse Hwf [Hs1 _] [_ He2].
    destruct (simulate_outcome self g Hwf Hs1 He2) as [Hret Hraise].
    destruct (Z_lt_le_dec (end_date self) PyDate.MAXORDINAL) as [Hlt | Hge].
    + left. apply Hret. left. exact Hlt.
    + right. assert (He : end_date self = PyDate.MAXORDINAL) by lia.
      split; [exact He | apply Hraise; assumption].
Qed.

(** C4.  With an explicit seed, a run (building the simulator, which seeds
    the generator, then [simulate]) does not depend on the state the
    generator was in before, nor on the current day: two runs on the same
    range, profile name and seed have the same outcome, so the same events
    with the same timestamps and labels in the same order. *)
Theorem run_simulation_deterministic (today1 today2 start end_ : PyDate.date)
    (name : string) (n : Z) (g1 g2 : G) :
  run_simulation today1 start (Some end_) name (Some n) g1 =
  run_simulation today2 start (Some end_) name (Some n) g2.
Proof.
  unfold run_simulation, ContributionSimulator_init, bind, lift.
  destruct (ContributionProfile_init name); reflexivity.
Qed.

(** C5.  The events [simulate] returns are in non-decreasing timestamp
    order, as a whole and within each day, and every event lies on a day
    of [[start_date, end_date]]. *)
Theorem simulate_sorted_within_range (self : ContributionSimulator)
    (evs : list Commit) (g g' : G) :
  simulate self g = Returned (evs, g') ->
  StronglySorted datetime_le (map timestamp evs) /\
  (forall d, StronglySorted datetime_le (List.filter (on_day d) (map timestamp evs))) /\
  Forall (fun c => start_date self <= dt_date (timestamp c) <= end_date self) evs.
Proof.
  intros H. apply simulate_spec in H. destruct H as [Hs Hin].
  split; [exact Hs|]. split.
  - intros d. apply StronglySorted_filter. exact Hs.
  - eapply Forall_impl; [exact Hin|]. intros c [Hc _]. exact Hc.
Qed.

(** C6.  Every event [simulate] returns has its hour within the profile's
    active range, bounds included. *)
Theorem simulate_hours_in_active_range (self : ContributionSimulator)
    (evs : list Commit) (g g' : G) :
  simulate self g = Returned (evs, g') ->
  Forall (fun c =>
            commit_time_start (config (profile self)) <= dt_hour (timestamp c)
              <= commit_time_end (config (profile self))) evs.
Proof.
  intros H. apply simulate_spec in H. destruct H as [_ Hin].
  eapply Forall_impl; [exact Hin|]. intros c [_ Hc]. exact Hc.
Qed.

Lemma should_commit_today_certain (self : ContributionSimulator) (date : PyDate.date)
    (active : bool) (g g1 : G) :
  (daily_commit_prob (config (profile self)) == 1)%Q ->
  PyDate.weekday date < 5 \/ (1 <= weekend_reduction (config (profile self)))%Q ->
  _should_commit_today self date g = Returned (active, g1) ->
  active = true.
Proof.
  intros Hp Hday H. unfold _should_commit_today in H.
  bind_inv H as u g2 Hu. apply ret_Returned in H. injection H as -> _.
  apply random_Returned in Hu. destruct Hu as [_ Hu1].
  apply Qltb_lt.
  destruct (5 <=? PyDate.weekday date) eqn:Ewd.
  - destruct Hday as [Hwd | Hwr]; [zbool; lia|].
    rewrite Hp, Qmult_1_l. eapply Qlt_le_trans; [exact Hu1 | exact Hwr].
  - rewrite Hp. exact Hu1.
Qed.

Lemma volume_without_burst (c : Config) (x u : Q) :
  (burst_probability c == 0)%Q -> (0 <= u)%Q ->
  volume_of_draws c x u = Z.min (Z.max 1 (int_of_float x)) (max_commits_per_day c).
Proof.
  intros Hb Hu. unfold volume_of_draws.
  destruct (Qltb u (burst_probability c)) eqn:E; [|reflexivity].
  apply Qltb_lt in E. rewrite Hb in E. exfalso. exact (Qlt_not_le _ _ E Hu).
Qed.

(** C7, amended.  For a well-formed profile: a day that activates yields
    at least one event and at most [max_commits_per_day]; the count is the
    truncated Gaussian draw clamped to a minimum of 1, then multiplied by
    the burst factor on a burst day, then clamped to the cap.  A single-day
    range before [date.max], with activation probability 1 and burst
    probability 0, on a weekday or with a weekend reduction of at least 1,
    yields events on that day only, as many as the clamped Gaussian draw:
    between 1 and the cap. *)
Theorem active_day_volume (self : ContributionSimulator) :
  well_formed (config (profile self)) ->
  (forall date g g1 g' evs,
     _should_commit_today self date g = Returned (true, g1) ->
     generate_day self date g = Returned (evs, g') ->
     1 <= len evs <= max_commits_per_day (config (profile self))) /\
  (forall date g,
     let avg := avg_commits_per_day (config (profile self)) in
     let xg := rng_gauss avg (avg * (5 # 10))%Q g in
     let ug := rng_random (snd xg) in
     _get_commit_count self date g =
     Returned (volume_of_draws (config (profile self)) (fst xg) (fst ug), snd ug)) /\
  (forall g,
     start_date self = end_date self ->
     1 <= start_date self < PyDate.MAXORDINAL ->
     PyDate.weekday (start_date self) < 5 \/
       (1 <= weekend_reduction (config (profile self)))%Q ->
     (daily_commit_prob (config (profile self)) == 1)%Q ->
     (burst_probability (config (profile self)) == 0)%Q ->
     exists evs g',
       simulate self g = Returned (evs, g') /\
       Forall (fun c => dt_date (timestamp c) = start_date self) evs /\
       1 <= len evs <= max_commits_per_day (config (profile self)) /\
       let avg := avg_commits_per_day (config (profile self)) in
       let x := fst (rng_gauss avg (avg * (5 # 10))%Q (snd (rng_random g))) in
       len evs = Z.min (Z.max 1 (int_of_float x)) (max_commits_per_day (config (profile self)))).
Proof.
  intros Hwf. split; [|split].
  - intros date g g1 g' evs Ha Hd. eapply generate_day_active_count; eauto.
  - intros date g. apply get_commit_count_draws.
  - intros g Hse Hd Hwd Hp Hb.
    destruct (generate_day_total self (start_date self) g Hwf) as (evs & g1 & Eday).
    exists evs, g1.
    assert (Esim : simulate self g = Returned (evs, g1)).
    { unfold simulate.
      replace (end_date self + 1 - start_date self) with 1 by lia.
      simpl. rewrite <- Hse, Z.leb_refl.
      rewrite (bind_step _ _ _ _ _ Eday).
      unfold bind at 1, lift, PyDate.add_days.
      replace ((0 <? start_date self + 1) && (start_date self + 1 <=? PyDate.MAXORDINAL))
        with true
        by (symmetry; apply andb_true_iff; split; [apply Z.ltb_lt | apply Z.leb_le]; lia).
      replace (start_date self + 1 <=? start_date self) with false
        by (symmetry; apply Z.leb_gt; lia).
      reflexivity. }
    split; [exact Esim|].
    pose proof (generate_day_spec _ _ _ _ _ Eday) as [Hin _].
    pose proof (generate_day_steps _ _ _ _ _ Eday) as (active & g2 & Ha & Hcases).
    pose proof (should_commit_today_certain _ _ _ _ _ Hp Hwd Ha) as ->.
    pose proof (generate_day_active_count _ _ _ _ _ _ Hwf Ha Eday) as Hlen.
    split; [|split; [exact Hlen|]].
    + rewrite List.Forall_map in Hin.
      eapply Forall_impl; [exact Hin|]. intros c [Hc _]. exact Hc.
    + destruct Hcases as [(Hf & _) | (_ & count & g3 & times & g4 & Hc & Ht & Hl)];
        [discriminate|].
      assert (Hg2 : g2 = snd (rng_random g)).
      { unfold _should_commit_today, bind, random, ret in Ha.
        destruct (rng_random g) as [u gu]. simpl. injection Ha as _ ->. reflexivity. }
      subst g2. rewrite get_commit_count_draws in Hc. cbv zeta in Hc.
      injection Hc as Hc _.
      rewrite volume_without_burst in Hc;
        [|exact Hb | apply (rng_random_unit _)].
      apply generate_commit_times_spec in Ht. destruct Ht as (_ & _ & Hn).
      apply commits_loop_spec in Hl. simpl in Hl.
      apply (f_equal (@length datetime)) in Hl. rewrite length_map in Hl.
      cbv zeta. rewrite Hc. unfold len in *. lia.
Qed.

End ContractFacts.

(** ** Concrete runs of the engine *)

(** C1, counterexample.  The range 2022-02-01 .. 2022-01-01 of the
    specification's example raises nothing: the run returns the empty
    list, with the generator as seeding left it. *)
Lemma reversed_range_counterexample :
  PyDate.ymd 2022 1 1 < PyDate.ymd 2022 2 1 /\
  run_simulation (PyDate.ymd 2024 1 1) (PyDate.ymd 2022 2 1)
    (Some (PyDate.ymd 2022 1 1)) "medium" (Some 42) monday_script
  = Returned ([], script_seed 42) /\
  forall e,
    run_simulation (PyDate.ymd 2024 1 1) (PyDate.ymd 2022 2 1)
      (Some (PyDate.ymd 2022 1 1)) "medium" (Some 42) monday_script
    <> Raised e.
Proof.
  assert (E : run_simulation (PyDate.ymd 2024 1 1) (PyDate.ymd 2022 2 1)
                (Some (PyDate.ymd 2022 1 1)) "medium" (Some 42) monday_script
              = Returned ([], script_seed 42)) by (vm_compute; reflexivity).
  split; [vm_compute; reflexivity|]. split; [exact E|].
  intros e. rewrite E. discriminate.
Qed.

Lemma medium_well_formed : well_formed medium_config.
Proof. unfold well_formed, Qle. simpl. lia. Qed.

Lemma simulate_range_outcomes_witness :
  (end_date reversed_simulator < start_date reversed_simulator /\
   simulate reversed_simulator monday_script = Returned ([], monday_script)) /\
  (start_date monday_simulator <= end_date monday_simulator /\
   ((exists evs g', simulate monday_simulator monday_script = Returned (evs, g')) \/
    (end_date monday_simulator = PyDate.MAXORDINAL /\
     simulate monday_simulator monday_script = Raised OverflowError))).
Proof.
  assert (H : end_date reversed_simulator < start_date reversed_simulator)
    by (vm_compute; reflexivity).
  assert (H' : start_date monday_simulator <= end_date monday_simulator)
    by (vm_compute; discriminate).
  split; split; [exact H | | exact H' |].
  - exact (proj1 (simulate_range_outcomes reversed_simulator monday_script) H).
  - apply (proj2 (simulate_range_outcomes monday_simulator monday_script) H').
    + exact medium_well_formed.
    + split; vm_compute; discriminate.
    + split; vm_compute; discriminate.
Defined.

Lemma run_simulation_deterministic_witness :
  run_simulation (PyDate.ymd 2024 1 1) (PyDate.ymd 2022 1 1)
    (Some (PyDate.ymd 2022 1 31)) "medium" (Some 42) [] =
  run_simulation (PyDate.ymd 2025 6 1) (PyDate.ymd 2022 1 1)
    (Some (PyDate.ymd 2022 1 31)) "medium" (Some 42) monday_script.
Proof.
  exact (run_simulation_deterministic (PyDate.ymd 2024 1 1) (PyDate.ymd 2025 6 1)
           (PyDate.ymd 2022 1 1) (PyDate.ymd 2022 1 31) "medium" 42 [] monday_script).
Defined.

(** Without a seed the generator is left as it was, and a run depends on
    it. *)
Example unseeded_runs_differ :
  run_simulation (PyDate.ymd 2024 1 1) (PyDate.ymd 2022 1 3)
    (Some (PyDate.ymd 2022 1 3)) "medium" None [] <>
  run_simulation (PyDate.ymd 2024 1 1) (PyDate.ymd 2022 1 3)
    (Some (PyDate.ymd 2022 1 3)) "medium" None monday_script.
Proof. vm_compute. discriminate. Qed.

Lemma monday_run :
  simulate monday_simulator monday_script = Returned (monday_events, monday_final).
Proof. vm_compute. reflexivity. Defined.

Lemma simulate_sorted_within_range_witness :
  simulate monday_simulator monday_script = Returned (monday_events, monday_final) /\
  StronglySorted datetime_le (map timestamp monday_events) /\
  (forall d, StronglySorted datetime_le (List.filter (on_day d) (map timestamp monday_events))) /\
  Forall (fun c => start_date monday_simulator <= dt_date (timestamp c)
                   <= end_date monday_simulator) monday_events.
Proof.
  split; [exact monday_run|].
  exact (simulate_sorted_within_range monday_simulator monday_events
           monday_script monday_final monday_run).
Defined.

Lemma simulate_hours_in_active_range_witness :
  simulate monday_simulator monday_script = Returned (monday_events, monday_final) /\
  Forall (fun c => 8 <= dt_hour (timestamp c) <= 22) monday_events.
Proof.
  split; [exact monday_run|].
  exact (simulate_hours_in_active_range monday_simulator monday_events
           monday_script monday_final monday_run).
Defined.

Lemma always_active_well_formed : well_formed always_active_config.
Proof. unfold well_formed, Qle. simpl. lia. Qed.

(** C7, counterexample.  On Saturday 2022-01-01 the activation probability
    1.0 is multiplied by the weekend reduction 0.5; with an activation draw
    of 0.60 the single-day range yields no event at all. *)
Lemma saturday_not_active_counterexample :
  start_date saturday_always_active = end_date saturday_always_active /\
  (daily_commit_prob (config (profile saturday_always_active)) == 1)%Q /\
  (burst_probability (config (profile saturday_always_active)) == 0)%Q /\
  PyDate.weekday (start_date saturday_always_active) = 5 /\
  simulate saturday_always_active [60; 1; 2; 3] = Returned ([], [1; 2; 3]).
Proof. vm_compute. repeat split; reflexivity. Qed.

Lemma full_weekend_well_formed : well_formed full_weekend_config.
Proof. unfold well_formed, Qle. simpl. lia. Qed.

Lemma active_day_volume_witness :
  (well_formed (config (profile monday_always_active)) /\
   exists evs g',
     simulate monday_always_active monday_script = Returned (evs, g') /\
     Forall (fun c => dt_date (timestamp c) = start_date monday_always_active) evs /\
     1 <= len evs <= 8) /\
  (well_formed (config (profile saturday_full_weekend)) /\
   PyDate.weekday (start_date saturday_full_weekend) = 5 /\
   exists evs g',
     simulate saturday_full_weekend monday_script = Returned (evs, g') /\
     Forall (fun c => dt_date (timestamp c) = start_date saturday_full_weekend) evs /\
     1 <= len evs <= 8).
Proof.
  assert (Hwf : well_formed (config (profile monday_always_active)))
    by exact always_active_well_formed.
  assert (Hwf' : well_formed (config (profile saturday_full_weekend)))
    by exact full_weekend_well_formed.
  split.
  - split; [exact Hwf|].
    destruct (proj2 (proj2 (active_day_volume monday_always_active Hwf)) monday_script)
      as (evs & g' & E & Hd & Hl & _).
    + reflexivity.
    + split; vm_compute; [discriminate | reflexivity].
    + left. vm_compute. reflexivity.
    + reflexivity.
    + reflexivity.
    + exists evs, g'. split; [exact E|]. split; [exact Hd | exact Hl].
  - split; [exact Hwf'|]. split; [reflexivity|].
    destruct (proj2 (proj2 (active_day_volume saturday_full_weekend Hwf')) monday_script)
      as (evs & g' & E & Hd & Hl & _).
    + reflexivity.
    + split; vm_compute; [discriminate | reflexivity].
    + right. vm_compute. discriminate.
    + reflexivity.
    + reflexivity.
    + exists evs, g'. split; [exact E|]. split; [exact Hd | exact Hl].
Defined.

Lemma profile_init_witness :
  canonical "heavy" /\
  exists self, ContributionProfile_init "heavy" = Returned self /\ intensity self = "heavy"%string.
Proof.
  assert (Hc : canonical "heavy") by (right; right; reflexivity).
  split; [exact Hc|].
  destruct (proj2 (profile_init_fails_iff_not_canonical "heavy") Hc) as (self & E & Hi & _).
  exists self. split; [exact E | exact Hi].
Defined.

Lemma generate_returns_nonempty_witness :
  exists msg g', generate [80; 3; 4; 5] = Returned (msg, g') /\ msg <> EmptyString.
Proof.
  destruct (generate_returns_nonempty [80; 3; 4; 5]) as (msg & g' & E & Hn & _).
  exists msg, g'. split; [exact E | exact Hn].
Defined.

(** ** [get_stats] *)

Lemma sum_values_empty {K : Type} `{Countable K} : sum_values (∅ : gmap K Z) = 0.
Proof. unfold sum_values. apply map_fold_empty. Qed.

Lemma sum_values_insert {K : Type} `{Countable K} (d : gmap K Z) (k : K) (v : Z) :
  d !! k = None -> sum_values (<[k := v]> d) = v + sum_values d.
Proof.
  intros Hk. unfold sum_values. apply map_fold_insert_L; [|exact Hk].
  intros. lia.
Qed.

Lemma sum_values_delete {K : Type} `{Countable K} (d : gmap K Z) (k : K) (v : Z) :
  d !! k = Some v -> sum_values d = v + sum_values (delete k d).
Proof.
  intros Hk. unfold sum_values.
  apply (map_fold_delete_L (fun _ v acc => v + acc)); [|exact Hk].
  intros. lia.
Qed.

Lemma sum_values_update {K : Type} `{Countable K} (d : gmap K Z) (k : K) (v w : Z) :
  d !! k = Some v -> sum_values (<[k := w]> d) = sum_values d + (w - v).
Proof.
  intros Hk. rewrite (sum_values_delete d k v Hk).
  rewrite <- (insert_delete_eq d k w).
  rewrite sum_values_insert by apply lookup_delete_eq. lia.
Qed.

Lemma zero_buckets_lookup (n : nat) (i : Z) :
  is_Some (zero_buckets n !! i) <-> 0 <= i < Z.of_nat n.
Proof.
  induction n as [|n IH]; simpl.
  - rewrite lookup_empty. split; [intros [v Hv]; discriminate | lia].
  - destruct (decide (Z.of_nat n = i)) as [<- | Hne].
    + rewrite lookup_insert_eq. split; [lia | eauto].
    + rewrite lookup_insert_ne by exact Hne. rewrite IH. lia.
Qed.

Lemma zero_buckets_sum (n : nat) : sum_values (zero_buckets n) = 0.
Proof.
  induction n as [|n IH]; simpl; [apply sum_values_empty|].
  rewrite sum_values_insert, IH; [reflexivity|].
  apply eq_None_not_Some. rewrite zero_buckets_lookup. lia.
Qed.

(** [d[k] += 1] on a present key keeps the keys and adds one to the sum. *)
Lemma dict_incr_spec (d : gmap Z Z) (k : Z) (n : Z) :
  (forall i, is_Some (d !! i) <-> 0 <= i < n) ->
  0 <= k < n ->
  exists d',
    dict_incr d k = Returned d' /\
    (forall i, is_Some (d' !! i) <-> 0 <= i < n) /\
    sum_values d' = sum_values d + 1.
Proof.
  intros Hkeys Hk. destruct (proj2 (Hkeys k) Hk) as [v Hv].
  exists (<[k := v + 1]> d). unfold dict_incr, dict_getitem. rewrite Hv. simpl.
  split; [reflexivity|]. split.
  - intros i. destruct (decide (k = i)) as [<- | Hne].
    + rewrite lookup_insert_eq. split; [lia | eauto].
    + rewrite lookup_insert_ne by exact Hne. apply Hkeys.
  - rewrite (sum_values_update d k v (v + 1) Hv). lia.
Qed.

Lemma stats_loop_spec (commits : list Commit) (b : Buckets) :
  Forall (fun c => valid_datetime (timestamp c)) commits ->
  bucket_keys b ->
  exists b',
    stats_loop commits b = Returned b' /\
    bucket_keys b' /\
    sum_values (by_weekday b') = sum_values (by_weekday b) + len commits /\
    sum_values (by_hour b') = sum_values (by_hour b) + len commits.
Proof.
  intros Hv. revert b. induction Hv as [|c commits Hc Hv IH]; intros b [Hw Hh].
  - exists b. unfold len. simpl.
    split; [reflexivity|]. split; [split; assumption|]. split; lia.
  - simpl.
    destruct (dict_incr_spec (by_weekday b) (PyDate.weekday (dt_date (timestamp c))) 7 Hw
                (weekday_range _)) as (w' & Ew & Hw' & Sw).
    destruct Hc as (Hhour & _).
    destruct (dict_incr_spec (by_hour b) (dt_hour (timestamp c)) 24 Hh ltac:(lia))
      as (h' & Eh & Hh' & Sh).
    rewrite Ew, Eh. simpl.
    match goal with |- context [stats_loop commits ?b1] =>
      destruct (IH b1 (conj Hw' Hh')) as (b' & E & Hk & S1 & S2)
    end.
    exists b'. split; [exact E|]. split; [exact Hk|].
    simpl in S1, S2. unfold len in *. simpl length.
    rewrite S1, S2, Sw, Sh. lia.
Qed.

Lemma seven_buckets_sum (d : gmap Z Z) :
  (forall i, is_Some (d !! i) <-> 0 <= i < 7) ->
  exists v0 v1 v2 v3 v4 v5 v6,
    d !! 0 = Some v0 /\ d !! 1 = Some v1 /\ d !! 2 = Some v2 /\ d !! 3 = Some v3 /\
    d !! 4 = Some v4 /\ d !! 5 = Some v5 /\ d !! 6 = Some v6 /\
    sum_values d = v0 + (v1 + (v2 + (v3 + (v4 + (v5 + (v6 + 0)))))).
Proof.
  intros Hk.
  destruct (proj2 (Hk 0) ltac:(lia)) as [v0 E0].
  destruct (proj2 (Hk 1) ltac:(lia)) as [v1 E1].
  destruct (proj2 (Hk 2) ltac:(lia)) as [v2 E2].
  destruct (proj2 (Hk 3) ltac:(lia)) as [v3 E3].
  destruct (proj2 (Hk 4) ltac:(lia)) as [v4 E4].
  destruct (proj2 (Hk 5) ltac:(lia)) as [v5 E5].
  destruct (proj2 (Hk 6) ltac:(lia)) as [v6 E6].
  exists v0, v1, v2, v3, v4, v5, v6. repeat (split; [assumption|]).
  rewrite (sum_values_delete d 0 v0 E0).
  rewrite (sum_values_delete _ 1 v1) by (rewrite lookup_delete_ne by lia; exact E1).
  rewrite (sum_values_delete _ 2 v2) by (rewrite !lookup_delete_ne by lia; exact E2).
  rewrite (sum_values_delete _ 3 v3) by (rewrite !lookup_delete_ne by lia; exact E3).
  rewrite (sum_values_delete _ 4 v4) by (rewrite !lookup_delete_ne by lia; exact E4).
  rewrite (sum_values_delete _ 5 v5) by (rewrite !lookup_delete_ne by lia; exact E5).
  rewrite (sum_values_delete _ 6 v6) by (rewrite !lookup_delete_ne by lia; exact E6).
  match goal with |- context [sum_values ?m] =>
    replace m with (∅ : gmap Z Z); [rewrite sum_values_empty; reflexivity|]
  end.
  symmetry. apply map_empty. intros i.
  repeat (rewrite lookup_delete; case_decide; [reflexivity|]).
  apply eq_None_not_Some. rewrite Hk. lia.
Qed.

(** X12.  On a non-empty list of events [get_stats] returns the full summary,
    in which the weekday counts and the hour counts both add up to the
    total, the number of events given. *)
Lemma get_stats_nonempty_sums (commits : list Commit) :
  commits <> [] ->
  Forall (fun c => valid_datetime (timestamp c)) commits ->
  exists stats named indexed,
    get_stats commits = Returned stats /\
    stats_field stats "total_commits" = Returned (SInt (len commits)) /\
    stats_field stats "by_weekday" = Returned (SNamed named) /\
    stats_field stats "by_hour" = Returned (SIndexed indexed) /\
    sum_values named = len commits /\
    sum_values indexed = len commits /\
    (forall i, is_Some (indexed !! i) <-> 0 <= i < 24).
Proof.
  intros Hne Hv. destruct commits as [|c rest]; [congruence|].
  unfold get_stats.
  destruct (stats_loop_spec (c :: rest) (mk_Buckets ∅ (zero_buckets 7) (zero_buckets 24)) Hv)
    as (b & E & [Hw Hh] & Sw & Sh).
  { split; intros i; [exact (zero_buckets_lookup 7 i) | exact (zero_buckets_lookup 24 i)]. }
  rewrite E. cbn [obind]. cbn [by_weekday by_hour] in Sw, Sh.
  rewrite zero_buckets_sum in Sw, Sh.
  destruct (seven_buckets_sum (by_weekday b) Hw)
    as (v0 & v1 & v2 & v3 & v4 & v5 & v6 & E0 & E1 & E2 & E3 & E4 & E5 & E6 & S7).
  unfold dict_getitem at 1 2 3 4 5 6 7.
  rewrite E0, E1, E2, E3, E4, E5, E6. cbn [obind].
  eexists _, _, (by_hour b). split; [reflexivity|].
  unfold stats_field, dict_getitem.
  split; [reflexivity|]. split; [reflexivity|]. split; [reflexivity|].
  split; [|split; [lia | exact Hh]].
  rewrite !sum_values_insert by reflexivity.
  rewrite sum_values_empty. lia.
Qed.

(** C2, the code at the empty list.  [get_stats] returns the empty
    dictionary: none of the six summary fields is present, and reading any
    of them, as [main] and [generate_contributions] do right after the
    call, raises [KeyError].  The guards [if by_date else 0] and
    [if daily_counts else 0] further down, which would give the zero
    summary, are never reached. *)
Theorem get_stats_empty_is_empty_dict :
  get_stats [] = Returned (∅ : gmap string StatValue) /\
  stats_field (∅ : gmap string StatValue) "total_commits" = Raised KeyError /\
  stats_field (∅ : gmap string StatValue) "active_days" = Raised KeyError /\
  stats_field (∅ : gmap string StatValue) "avg_commits_per_active_day" = Raised KeyError /\
  stats_field (∅ : gmap string StatValue) "max_commits_in_day" = Raised KeyError.
Proof. repeat split; reflexivity. Qed.

(** C9, the code at the empty list.  The dictionary returned for no
    events has neither weekday buckets nor hour buckets nor a total, so
    the three sums of the claim cannot be read from it. *)
Theorem get_stats_empty_has_no_buckets :
  exists stats,
    get_stats [] = Returned stats /\
    stats_field stats "by_weekday" = Raised KeyError /\
    stats_field stats "by_hour" = Raised KeyError /\
    stats_field stats "total_commits" = Raised KeyError.
Proof. exists ∅. repeat split; reflexivity. Qed.

Lemma get_stats_nonempty_sums_witness :
  exists stats named indexed,
    get_stats monday_events = Returned stats /\
    stats_field stats "by_weekday" = Returned (SNamed named) /\
    stats_field stats "by_hour" = Returned (SIndexed indexed) /\
    sum_values named = 3 /\ sum_values indexed = 3.
Proof.
  destruct (get_stats_nonempty_sums monday_events) as
    (stats & named & indexed & E & _ & En & Ei & Sn & Si & _).
  - discriminate.
  - repeat constructor; vm_compute; discriminate.
  - exists stats, named, indexed. repeat (split; [assumption|]). exact Si.
Defined.

(** ** Further properties of the engine *)

Section EngineBounds.
Context {G : Type} {RG : RandomGen G}.

(** X2.  The only way a run over a valid range can fail: the loop steps to the
    day after [end_date] before testing it, and the day after [date.max]
    does not exist. *)
Theorem simulate_overflow_iff_date_max (self : ContributionSimulator) (g : G) :
  well_formed (config (profile self)) ->
  PyDate.valid (start_date self) -> PyDate.valid (end_date self) ->
  start_date self <= end_date self ->
  (simulate self g = Raised OverflowError <-> end_date self = PyDate.MAXORDINAL) /\
  (end_date self < PyDate.MAXORDINAL -> exists evs g', simulate self g = Returned (evs, g')).
Proof.
  intros Hwf [Hs1 _] [_ He2] Hse.
  destruct (simulate_outcome self g Hwf Hs1 He2) as [Hret Hraise].
  split.
  - split.
    + intros Hr. destruct (Z_lt_le_dec (end_date self) PyDate.MAXORDINAL) as [Hlt|Hge]; [|lia].
      destruct (Hret (or_introl Hlt)) as (evs & g' & E). rewrite E in Hr. discriminate.
    + intros He. apply Hraise; assumption.
  - intros Hlt. apply Hret. left. exact Hlt.
Qed.

Lemma generate_day_length (self : ContributionSimulator) (date : PyDate.date)
    (evs : list Commit) (g g' : G) :
  well_formed (config (profile self)) ->
  generate_day self date g = Returned (evs, g') ->
  0 <= len evs <= max_commits_per_day (config (profile self)).
Proof.
  intros Hwf H. pose proof H as Hsteps. apply generate_day_steps in Hsteps.
  destruct Hsteps as (active & g1 & Ha & [(-> & -> & _) | (-> & _)]).
  - destruct Hwf as (Hmax & _). unfold len. simpl. lia.
  - pose proof (generate_day_active_count _ _ _ _ _ _ Hwf Ha H). lia.
Qed.

Lemma simulate_loop_length (self : ContributionSimulator) (fuel : nat)
    (current : PyDate.date) (acc r : list Commit) (g g' : G) :
  well_formed (config (profile self)) ->
  simulate_loop self fuel current acc g = Returned (r, g') ->
  len r <= len acc
           + max_commits_per_day (config (profile self))
             * Z.max 0 (end_date self + 1 - current).
Proof.
  intros Hwf. pose proof Hwf as (Hmax & _).
  revert current acc g. induction fuel as [|fuel IH]; intros current acc g H; simpl in H.
  - destruct (current <=? end_date self); [discriminate|].
    apply ret_Returned in H. injection H as -> _. nia.
  - destruct (current <=? end_date self) eqn:Ece.
    2:{ apply ret_Returned in H. injection H as -> _. nia. }
    zbool. bind_inv H as day g1 Hday. bind_inv H as next g2 Hnext.
    apply lift_Returned in Hnext. simpl in Hnext. destruct Hnext as [Hnext ->].
    apply add_days_Returned in Hnext. destruct Hnext as [-> _].
    apply IH in H. apply generate_day_length in Hday; [|exact Hwf].
    unfold len in *. rewrite length_app in H. nia.
Qed.

(** X4.  A run never yields more events than the daily cap times the number of
    days of the range. *)
Theorem simulate_total_bound (self : ContributionSimulator) (evs : list Commit) (g g' : G) :
  well_formed (config (profile self)) ->
  simulate self g = Returned (evs, g') ->
  len evs <= max_commits_per_day (config (profile self)) * days_in_range self.
Proof.
  intros Hwf H. unfold simulate in H.
  apply simulate_loop_length in H; [|exact Hwf].
  unfold days_in_range, len in *. simpl in H. lia.
Qed.

End EngineBounds.

Lemma count_if_app (p : Commit -> bool) (a b : list Commit) :
  count_if p (a ++ b) = count_if p a + count_if p b.
Proof.
  unfold count_if, len. rewrite List.filter_app, length_app. lia.
Qed.

Lemma count_if_range (p : Commit -> bool) (l : list Commit) :
  0 <= count_if p l <= len l.
Proof.
  unfold count_if, len. pose proof (List.filter_length_le p l). lia.
Qed.

Lemma count_if_none (p : Commit -> bool) (l : list Commit) :
  Forall (fun c => p c = false) l -> count_if p l = 0.
Proof.
  intros H. unfold count_if, len. induction H as [|c l Hc Hl IH]; simpl; [reflexivity|].
  rewrite Hc. exact IH.
Qed.

Lemma count_if_cons (p : Commit -> bool) (c : Commit) (l : list Commit) :
  count_if p (c :: l) = (if p c then 1 else 0) + count_if p l.
Proof.
  unfold count_if, len. simpl. destruct (p c); simpl length; lia.
Qed.

Section EventFacts.
Context {G : Type} {RG : RandomGen G}.

Lemma commit_times_loop_valid (date : PyDate.date) (lo hi : Z) (n : nat)
    (times l : list datetime) (g g' : G) :
  commit_times_loop date lo hi n times g = Returned (l, g') ->
  Forall valid_datetime times -> Forall valid_datetime l.
Proof.
  revert times g. induction n as [|n IH]; intros times g H Ht; simpl in H.
  - apply ret_Returned in H. injection H as -> _. exact Ht.
  - bind_inv H as hour g1 H1. bind_inv H as minute g2 H2.
    bind_inv H as second g3 H3. bind_inv H as dt g4 H4.
    apply lift_Returned in H4. simpl in H4. destruct H4 as [Hd ->].
    apply datetime_new_Returned in Hd. destruct Hd as (-> & Hh & Hm & Hs).
    apply IH in H; [exact H|].
    apply Forall_app. split; [exact Ht|].
    constructor; [|constructor]. unfold valid_datetime. simpl. auto.
Qed.

Lemma commits_loop_labels (times : list datetime) (commits r : list Commit) (g g' : G) :
  commits_loop times commits g = Returned (r, g') ->
  Forall (fun c => action_object_label (message c)) commits ->
  Forall (fun c => action_object_label (message c)) r.
Proof.
  revert commits g. induction times as [|dt times IH]; intros commits g H Hc; simpl in H.
  - apply ret_Returned in H. injection H as -> _. exact Hc.
  - bind_inv H as msg g1 H1. apply IH in H; [exact H|].
    apply Forall_app. split; [exact Hc|].
    constructor; [|constructor]. simpl.
    destruct (generate_label g) as (msg' & g1' & E & Hl).
    rewrite E in H1. injection H1 as <- _. exact Hl.
Qed.

Lemma generate_day_well_formed (self : ContributionSimulator) (date : PyDate.date)
    (evs : list Commit) (g g' : G) :
  generate_day self date g = Returned (evs, g') ->
  Forall well_formed_commit evs.
Proof.
  intros H. apply generate_day_steps in H.
  destruct H as (active & g1 & _ & [(_ & -> & _) | (_ & count & g2 & times & g3 & _ & Ht & Hc)]).
  - constructor.
  - pose proof (commits_loop_labels _ _ _ _ _ Hc ltac:(constructor)) as Hl.
    apply commits_loop_spec in Hc. simpl in Hc.
    unfold _generate_commit_times in Ht. bind_inv Ht as raw g4 Hraw.
    apply ret_Returned in Ht. injection Ht as -> _.
    apply commit_times_loop_valid in Hraw; [|constructor].
    apply (list_sort_Forall valid_datetime) in Hraw. rewrite <- Hc in Hraw.
    rewrite List.Forall_map in Hraw.
    rewrite List.Forall_forall in *. intros c Hin. split; auto.
Qed.

Lemma simulate_loop_Forall (P : Commit -> Prop) (self : ContributionSimulator)
    (fuel : nat) (current : PyDate.date) (acc r : list Commit) (g g' : G) :
  (forall d g0 evs g1, generate_day self d g0 = Returned (evs, g1) -> Forall P evs) ->
  simulate_loop self fuel current acc g = Returned (r, g') ->
  Forall P acc -> Forall P r.
Proof.
  intros Hday. revert current acc g.
  induction fuel as [|fuel IH]; intros current acc g H Hacc; simpl in H.
  - destruct (current <=? end_date self); [discriminate|].
    apply ret_Returned in H. injection H as -> _. exact Hacc.
  - destruct (current <=? end_date self).
    2:{ apply ret_Returned in H. injection H as -> _. exact Hacc. }
    bind_inv H as day g1 Hd. bind_inv H as next g2 Hnext.
    apply IH in H; [exact H|]. apply Forall_app. split; [exact Hacc|].
    eapply Hday; eauto.
Qed.

Lemma simulate_well_formed (self : ContributionSimulator) (evs : list Commit) (g g' : G) :
  simulate self g = Returned (evs, g') -> Forall well_formed_commit evs.
Proof.
  intros H. unfold simulate in H.
  eapply simulate_loop_Forall in H; [exact H | | constructor].
  intros d g0 day g1 Hd. eapply generate_day_well_formed; eauto.
Qed.

(** X6.  Every event of a run carries a label built around an action word and
    an object word; in particular no event has an empty message. *)
Theorem simulate_labels (self : ContributionSimulator) (evs : list Commit) (g g' : G) :
  simulate self g = Returned (evs, g') ->
  Forall (fun c => action_object_label (message c) /\ message c <> EmptyString) evs.
Proof.
  intros H. apply simulate_well_formed in H.
  eapply Forall_impl; [exact H|]. intros c [_ Hl].
  split; [exact Hl | apply action_object_label_nonempty; exact Hl].
Qed.

(** X7.  Every timestamp of a run is a real time of day, whatever the profile:
    hour in 0..23, minute and second in 0..59. *)
Theorem simulate_valid_timestamps (self : ContributionSimulator) (evs : list Commit) (g g' : G) :
  simulate self g = Returned (evs, g') ->
  Forall (fun c => valid_datetime (timestamp c)) evs.
Proof.
  intros H. apply simulate_well_formed in H.
  eapply Forall_impl; [exact H|]. intros c [Hv _]. exact Hv.
Qed.

Lemma simulate_loop_per_day (self : ContributionSimulator) (fuel : nat)
    (current : PyDate.date) (acc r : list Commit) (g g' : G) :
  well_formed (config (profile self)) ->
  simulate_loop self fuel current acc g = Returned (r, g') ->
  Forall (fun c => dt_date (timestamp c) < current) acc ->
  (forall d, count_if (commit_on_day d) acc <= max_commits_per_day (config (profile self))) ->
  forall d, count_if (commit_on_day d) r <= max_commits_per_day (config (profile self)).
Proof.
  intros Hwf. revert current acc g.
  induction fuel as [|fuel IH]; intros current acc g H Hlt Hacc; simpl in H.
  - destruct (current <=? end_date self); [discriminate|].
    apply ret_Returned in H. injection H as -> _. exact Hacc.
  - destruct (current <=? end_date self).
    2:{ apply ret_Returned in H. injection H as -> _. exact Hacc. }
    bind_inv H as day g1 Hd. bind_inv H as next g2 Hnext.
    apply lift_Returned in Hnext. simpl in Hnext. destruct Hnext as [Hnext ->].
    apply add_days_Returned in Hnext. destruct Hnext as [-> _].
    pose proof (generate_day_length _ _ _ _ _ Hwf Hd) as Hlen.
    apply generate_day_spec in Hd. destruct Hd as [Hin _].
    rewrite List.Forall_map in Hin.
    eapply IH; [exact H | |].
    + apply Forall_app. split.
      * eapply Forall_impl; [exact Hlt|]. intros c Hc. simpl in Hc. lia.
      * eapply Forall_impl; [exact Hin|]. intros c [Hc _]. lia.
    + intros d. rewrite count_if_app.
      destruct (Z.eq_dec d current) as [-> | Hne].
      * rewrite (count_if_none _ acc).
        -- pose proof (count_if_range (commit_on_day current) day). lia.
        -- eapply Forall_impl; [exact Hlt|]. intros c Hc. simpl in Hc.
           unfold commit_on_day. apply Z.eqb_neq. lia.
      * rewrite (count_if_none _ day).
        -- specialize (Hacc d). lia.
        -- eapply Forall_impl; [exact Hin|]. intros c [Hc _].
           unfold commit_on_day. apply Z.eqb_neq. lia.
Qed.

(** X5.  No day of a run carries more events than the daily cap. *)
Theorem simulate_per_day_cap (self : ContributionSimulator) (evs : list Commit) (g g' : G) :
  well_formed (config (profile self)) ->
  simulate self g = Returned (evs, g') ->
  forall d, count_if (commit_on_day d) evs <= max_commits_per_day (config (profile self)).
Proof.
  intros Hwf H. unfold simulate in H.
  eapply simulate_loop_per_day; [exact Hwf | exact H | constructor |].
  intros d'. unfold count_if, len. simpl. destruct Hwf as (Hmax & _). lia.
Qed.

End EventFacts.

(** ** Further properties of the profile and of the labels *)

(** X10.  [get_config] raises [KeyError] exactly on the keys that are not one
    of the eight parameters. *)
Theorem get_config_keyerror_iff (self : ContributionProfile) (key : string) :
  (get_config self key = Raised KeyError <-> ~ In key parameter_keys) /\
  (In key parameter_keys -> exists v, get_config self key = Returned v).
Proof.
  split; [|apply get_config_parameter].
  split.
  - intros Hr Hin. destruct (get_config_parameter self key Hin) as [v Hv].
    rewrite Hv in Hr. discriminate.
  - intros Hn. unfold get_config, config_dict.
    unfold parameter_keys in Hn. simpl in Hn.
    repeat (rewrite lookup_insert_ne by (intros <-; apply Hn; tauto)).
    rewrite lookup_empty. reflexivity.
Qed.

Lemma get_config_keyerror_iff_witness :
  In "burst_multiplier"%string parameter_keys /\
  exists v, get_config medium_profile "burst_multiplier" = Returned v.
Proof.
  assert (H : In "burst_multiplier"%string parameter_keys)
    by (unfold parameter_keys; simpl; tauto).
  split; [exact H|].
  exact (proj2 (get_config_keyerror_iff medium_profile "burst_multiplier") H).
Defined.

Lemma ends_with_space_append (a b : string) :
  b <> EmptyString -> ends_with_space (a +:+ b) = ends_with_space b.
Proof.
  intros Hb. induction a as [|x a IH]; [reflexivity|].
  rewrite append_cons. simpl. rewrite IH.
  destruct (a +:+ b) eqn:E; [|reflexivity].
  destruct a; [rewrite append_empty_l in E; congruence | discriminate].
Qed.

Lemma OBJECTS_tidy (o : string) :
  In o OBJECTS -> o <> EmptyString /\ ends_with_space o = false.
Proof.
  unfold OBJECTS. simpl. intros H.
  repeat (destruct H as [<- | H]; [split; [discriminate | reflexivity]|]).
  destruct H.
Qed.

Lemma DETAILS_tidy (d : string) :
  In d DETAILS -> truthy d = true -> d <> EmptyString /\ ends_with_space d = false.
Proof.
  unfold DETAILS. simpl. intros H Ht.
  repeat (destruct H as [<- | H];
          [first [discriminate Ht | split; [discriminate | reflexivity]]|]).
  destruct H.
Qed.

Section LabelFacts.
Context {G : Type} {RG : RandomGen G}.

Lemma choice_Returned {A : Type} (seq : list A) (x : A) (g g' : G) :
  choice seq g = Returned (x, g') -> In x seq.
Proof.
  intros H. destruct seq as [|y seq']; [discriminate|].
  destruct (choice_total (y :: seq') g ltac:(discriminate)) as (x' & g1 & E & Hin).
  rewrite E in H. injection H as <- _. exact Hin.
Qed.

(** X11.  A label never ends in a space: an empty detail is left out instead of
    being appended after a separator. *)
Theorem generate_no_trailing_space (g g' : G) (msg : string) :
  generate g = Returned (msg, g') -> ends_with_space msg = false.
Proof.
  unfold generate. intros H. bind_inv H as style g1 Hs.
  assert (Hobj : forall a o, In o OBJECTS -> ends_with_space (a +:+ " " +:+ o) = false).
  { intros a o Ho. apply OBJECTS_tidy in Ho. destruct Ho as [Hne He].
    rewrite ends_with_space_append.
    - rewrite ends_with_space_append by exact Hne. exact He.
    - destruct o; discriminate. }
  assert (Hdet : forall a o d, In d DETAILS -> truthy d = true ->
                   ends_with_space (a +:+ " " +:+ o +:+ " " +:+ d) = false).
  { intros a o d Hd Ht. destruct (DETAILS_tidy d Hd Ht) as [Hne He].
    rewrite ends_with_space_append by (destruct o; discriminate).
    rewrite ends_with_space_append by (destruct o; discriminate).
    rewrite ends_with_space_append by (destruct d; [congruence | discriminate]).
    rewrite ends_with_space_append by exact Hne. exact He. }
  destruct (Qltb style (4 # 10)).
  - bind_inv H as prefix g2 Hp. bind_inv H as action g3 Ha.
    bind_inv H as obj g4 Ho. bind_inv H as detail g5 Hd.
    apply choice_Returned in Ho, Hd.
    destruct (truthy detail) eqn:Ht; apply ret_Returned in H; injection H as -> _.
    + rewrite ends_with_space_append by discriminate.
      rewrite (ends_with_space_append ": ") by (destruct action; discriminate).
      apply Hdet; assumption.
    + rewrite ends_with_space_append by discriminate.
      rewrite (ends_with_space_append ": ") by (destruct action; discriminate).
      apply Hobj; assumption.
  - destruct (Qltb style (7 # 10)).
    + bind_inv H as action g2 Ha. bind_inv H as obj g3 Ho.
      apply choice_Returned in Ho. apply ret_Returned in H. injection H as -> _.
      apply Hobj; assumption.
    + bind_inv H as action g2 Ha. bind_inv H as obj g3 Ho.
      bind_inv H as detail g4 Hd. apply choice_Returned in Ho, Hd.
      destruct (truthy detail) eqn:Ht; apply ret_Returned in H; injection H as -> _.
      * apply Hdet; assumption.
      * apply Hobj; assumption.
Qed.

End LabelFacts.

Lemma generate_no_trailing_space_witness :
  generate [80; 3; 4; 10] = Returned ("fix helpers"%string, []) /\
  ends_with_space "fix helpers" = false.
Proof.
  assert (E : generate [80; 3; 4; 10] = Returned ("fix helpers"%string, []))
    by (vm_compute; reflexivity).
  split; [exact E|].
  exact (generate_no_trailing_space [80; 3; 4; 10] [] "fix helpers" E).
Defined.

(** ** A profile that never activates *)

Section NeverActive.
Context {G : Type} {RG : RandomGen G}.

Lemma generate_day_never_active (self : ContributionSimulator) (date : PyDate.date) (g : G) :
  (daily_commit_prob (config (profile self)) == 0)%Q ->
  generate_day self date g = Returned ([], snd (rng_random g)).
Proof.
  intros Hp. unfold generate_day, _should_commit_today, bind, random, ret.
  pose proof (rng_random_unit g) as [Hu _].
  destruct (rng_random g) as [u g1]. simpl in *.
  match goal with |- context [Qltb u ?p] => assert (Hf : Qltb u p = false) end.
  { destruct (Qltb u _) eqn:E; [|reflexivity].
    apply Qltb_lt in E. exfalso.
    destruct (5 <=? PyDate.weekday date); rewrite Hp in E;
      [rewrite Qmult_0_l in E|]; exact (Qlt_not_le _ _ E Hu). }
  rewrite Hf. reflexivity.
Qed.

Lemma simulate_loop_never_active (self : ContributionSimulator) (fuel : nat)
    (current : PyDate.date) (acc : list Commit) (g : G) :
  (daily_commit_prob (config (profile self)) == 0)%Q ->
  1 <= current -> end_date self < PyDate.MAXORDINAL ->
  end_date self + 1 - current <= Z.of_nat fuel ->
  exists g', simulate_loop self fuel current acc g = Returned (acc, g').
Proof.
  intros Hp. revert current acc g. induction fuel as [|fuel IH];
    intros current acc g H1 Hmax Hfuel.
  - rewrite simulate_loop_past_end by lia. eauto.
  - destruct (Z_lt_le_dec (end_date self) current) as [Hpast | Hin].
    { rewrite simulate_loop_past_end by lia. eauto. }
    simpl. replace (current <=? end_date self) with true
      by (symmetry; apply Z.leb_le; exact Hin).
    rewrite (bind_step _ _ _ _ _ (generate_day_never_active self current g Hp)).
    unfold bind at 1, lift, PyDate.add_days.
    replace ((0 <? current + 1) && (current + 1 <=? PyDate.MAXORDINAL)) with true
      by (symmetry; apply andb_true_iff; split; [apply Z.ltb_lt | apply Z.leb_le]; lia).
    rewrite app_nil_r. apply IH; lia.
Qed.

(** X8.  With a daily activation probability of 0 no day ever activates: a run
    returns the empty list, on weekdays and weekends alike. *)
Theorem never_active_yields_nothing (self : ContributionSimulator) (g : G) :
  (daily_commit_prob (config (profile self)) == 0)%Q ->
  1 <= start_date self -> end_date self < PyDate.MAXORDINAL ->
  exists g', simulate self g = Returned ([], g').
Proof.
  intros Hp H1 Hmax. unfold simulate.
  apply simulate_loop_never_active; try assumption. lia.
Qed.

End NeverActive.

Lemma never_active_yields_nothing_witness :
  exists g', simulate never_active_simulator monday_script = Returned ([], g').
Proof.
  apply (never_active_yields_nothing never_active_simulator monday_script).
  - reflexivity.
  - vm_compute. discriminate.
  - vm_compute. reflexivity.
Defined.

(** ** What the buckets of [get_stats] count *)

Lemma dict_incr_Returned (d d' : gmap Z Z) (k : Z) :
  dict_incr d k = Returned d' ->
  exists v, d !! k = Some v /\ d' = <[k := v + 1]> d.
Proof.
  unfold dict_incr, dict_getitem. destruct (d !! k) as [v|]; [|discriminate].
  simpl. intros H. injection H as <-. eauto.
Qed.

Lemma dict_incr_lookup (d d' : gmap Z Z) (k i : Z) :
  dict_incr d k = Returned d' ->
  d' !! i = (fun v => v + (if k =? i then 1 else 0)) <$> d !! i.
Proof.
  intros H. apply dict_incr_Returned in H. destruct H as (v & Hv & ->).
  destruct (Z.eqb_spec k i) as [<- | Hne].
  - rewrite lookup_insert_eq, Hv. reflexivity.
  - rewrite lookup_insert_ne by exact Hne.
    destruct (d !! i); simpl; [f_equal; lia | reflexivity].
Qed.

Lemma stats_loop_cons (c : Commit) (rest : list Commit) (b b' : Buckets) :
  stats_loop (c :: rest) b = Returned b' ->
  exists w' h',
    dict_incr (by_weekday b) (PyDate.weekday (dt_date (timestamp c))) = Returned w' /\
    dict_incr (by_hour b) (dt_hour (timestamp c)) = Returned h' /\
    stats_loop rest
      (mk_Buckets
         (<[dt_date (timestamp c) :=
              default 0 (by_date b !! dt_date (timestamp c)) + 1]> (by_date b))
         w' h') = Returned b'.
Proof.
  simpl. intros H.
  destruct (dict_incr (by_weekday b) _) as [w'| |]; try discriminate.
  destruct (dict_incr (by_hour b) _) as [h'| |]; try discriminate.
  simpl in H. eauto.
Qed.

Lemma stats_loop_by_hour (commits : list Commit) (b b' : Buckets) (h : Z) :
  stats_loop commits b = Returned b' ->
  by_hour b' !! h = (fun v => v + count_if (commit_at_hour h) commits) <$> by_hour b !! h.
Proof.
  revert b. induction commits as [|c rest IH]; intros b H.
  - simpl in H. injection H as <-. unfold count_if, len. simpl.
    destruct (by_hour b !! h); simpl; [f_equal; lia | reflexivity].
  - apply stats_loop_cons in H. destruct H as (w' & h' & _ & Hh & H).
    apply IH in H. simpl in H. rewrite H, (dict_incr_lookup _ _ _ h Hh).
    rewrite count_if_cons. unfold commit_at_hour at 2.
    destruct (by_hour b !! h); simpl; [f_equal; lia | reflexivity].
Qed.

Lemma stats_loop_by_weekday (commits : list Commit) (b b' : Buckets) (w : Z) :
  stats_loop commits b = Returned b' ->
  by_weekday b' !! w =
  (fun v => v + count_if (commit_on_weekday w) commits) <$> by_weekday b !! w.
Proof.
  revert b. induction commits as [|c rest IH]; intros b H.
  - simpl in H. injection H as <-. unfold count_if, len. simpl.
    destruct (by_weekday b !! w); simpl; [f_equal; lia | reflexivity].
  - apply stats_loop_cons in H. destruct H as (w' & h' & Hw & _ & H).
    apply IH in H. simpl in H. rewrite H, (dict_incr_lookup _ _ _ w Hw).
    rewrite count_if_cons. unfold commit_on_weekday at 2.
    destruct (by_weekday b !! w); simpl; [f_equal; lia | reflexivity].
Qed.

Lemma stats_loop_by_date (commits : list Commit) (b b' : Buckets) (d : Z) :
  stats_loop commits b = Returned b' ->
  by_date b' !! d =
  if count_if (commit_on_day d) commits =? 0 then by_date b !! d
  else Some (default 0 (by_date b !! d) + count_if (commit_on_day d) commits).
Proof.
  revert b. induction commits as [|c rest IH]; intros b H.
  - simpl in H. injection H as <-. reflexivity.
  - apply stats_loop_cons in H. destruct H as (w' & h' & _ & _ & H).
    apply IH in H. simpl in H. rewrite H. clear H IH.
    rewrite count_if_cons.
    change (commit_on_day d c) with (dt_date (timestamp c) =? d).
    pose proof (count_if_range (commit_on_day d) rest) as Hr.
    destruct (Z.eqb_spec (dt_date (timestamp c)) d) as [-> | Hne].
    + cbv iota. rewrite lookup_insert_eq. unfold PyDate.date in *.
      generalize (default 0 (by_date b !! d)). intros n.
      replace (1 + count_if (commit_on_day d) rest =? 0) with false
        by (symmetry; apply Z.eqb_neq; lia).
      destruct (count_if (commit_on_day d) rest =? 0) eqn:E; zbool;
        cbn [default from_option id]; f_equal; lia.
    + cbv iota. rewrite lookup_insert_ne by exact Hne.
      replace (0 + count_if (commit_on_day d) rest) with (count_if (commit_on_day d) rest)
        by lia.
      reflexivity.
Qed.

Lemma zero_buckets_value (n : nat) (i : Z) :
  zero_buckets n !! i = if (0 <=? i) && (i <? Z.of_nat n) then Some 0 else None.
Proof.
  induction n as [|n IH]; simpl zero_buckets.
  - rewrite lookup_empty. destruct (0 <=? i) eqn:E1, (i <? Z.of_nat 0) eqn:E2;
      simpl; try reflexivity. zbool. lia.
  - destruct (decide (Z.of_nat n = i)) as [<- | Hne].
    + rewrite lookup_insert_eq.
      replace ((0 <=? Z.of_nat n) && (Z.of_nat n <? Z.of_nat (S n))) with true
        by (symmetry; apply andb_true_iff; split; [apply Z.leb_le | apply Z.ltb_lt]; lia).
      reflexivity.
    + rewrite lookup_insert_ne by exact Hne. rewrite IH.
      destruct (0 <=? i) eqn:E1; simpl; [|reflexivity].
      destruct (i <? Z.of_nat n) eqn:E2, (i <? Z.of_nat (S n)) eqn:E3;
        try reflexivity; zbool; lia.
Qed.

(** The summary of a non-empty list, field by field, in terms of the
    buckets the loop leaves behind. *)
Lemma get_stats_fields (commits : list Commit) :
  commits <> [] ->
  Forall (fun c => valid_datetime (timestamp c)) commits ->
  exists stats b named,
    get_stats commits = Returned stats /\
    stats_loop commits initial_buckets = Returned b /\
    stats_field stats "total_commits" = Returned (SInt (len commits)) /\
    stats_field stats "active_days" = Returned (SInt (Z.of_nat (size (by_date b)))) /\
    stats_field stats "avg_commits_per_active_day" =
      Returned (if Z.of_nat (size (by_date b)) =? 0 then SInt 0
                else SFloat (inject_Z (len commits) / inject_Z (Z.of_nat (size (by_date b))))%Q) /\
    stats_field stats "max_commits_in_day" =
      Returned (SInt (max_or_zero (map_to_list (by_date b)).*2)) /\
    stats_field stats "by_weekday" = Returned (SNamed named) /\
    stats_field stats "by_hour" = Returned (SIndexed (by_hour b)) /\
    (forall w name, nth_error weekday_names w = Some name ->
       named !! name = Some (count_if (commit_on_weekday (Z.of_nat w)) commits)) /\
    (forall name, is_Some (named !! name) -> In name weekday_names).
Proof.
  intros Hne Hv. destruct commits as [|c rest]; [congruence|].
  unfold get_stats. fold initial_buckets.
  destruct (stats_loop_spec (c :: rest) initial_buckets Hv) as (b & E & _).
  { split; intros i; [exact (zero_buckets_lookup 7 i) | exact (zero_buckets_lookup 24 i)]. }
  rewrite E. cbn [obind].
  assert (Hw : forall w, 0 <= w < 7 ->
            by_weekday b !! w = Some (count_if (commit_on_weekday w) (c :: rest))).
  { intros w Hw. rewrite (stats_loop_by_weekday _ _ _ w E).
    cbn [initial_buckets by_weekday]. rewrite zero_buckets_value.
    replace ((0 <=? w) && (w <? Z.of_nat 7)) with true
      by (symmetry; apply andb_true_iff; split; [apply Z.leb_le | apply Z.ltb_lt]; lia).
    reflexivity. }
  unfold dict_getitem at 1 2 3 4 5 6 7.
  rewrite (Hw 0), (Hw 1), (Hw 2), (Hw 3), (Hw 4), (Hw 5), (Hw 6) by lia.
  cbn [obind].
  eexists _, b, _. split; [reflexivity|]. split; [reflexivity|].
  unfold stats_field, dict_getitem.
  do 6 (split; [reflexivity|]).
  split.
  - intros w name Hn.
    do 7 (destruct w as [|w]; [simpl in Hn; injection Hn as <-; reflexivity|]).
    destruct w; discriminate.
  - intros name [v Hn]. unfold weekday_names. simpl.
    destruct (decide (name = "Mon"%string)); [auto|].
    destruct (decide (name = "Tue"%string)); [auto|].
    destruct (decide (name = "Wed"%string)); [auto|].
    destruct (decide (name = "Thu"%string)); [auto 10|].
    destruct (decide (name = "Fri"%string)); [auto 10|].
    destruct (decide (name = "Sat"%string)); [auto 10|].
    destruct (decide (name = "Sun"%string)); [auto 10|].
    exfalso. repeat (rewrite lookup_insert_ne in Hn by congruence).
    rewrite lookup_empty in Hn. discriminate.
Qed.

(** X13.  The hour bucket [h] counts the events at hour [h], for each of the 24
    hours and no other key; the weekday bucket named after a day counts the
    events of that weekday, for each of the seven names and no other. *)
Theorem get_stats_buckets_count (commits : list Commit) :
  commits <> [] ->
  Forall (fun c => valid_datetime (timestamp c)) commits ->
  exists stats named indexed,
    get_stats commits = Returned stats /\
    stats_field stats "by_weekday" = Returned (SNamed named) /\
    stats_field stats "by_hour" = Returned (SIndexed indexed) /\
    (forall h, indexed !! h =
               if (0 <=? h) && (h <? 24) then Some (count_if (commit_at_hour h) commits)
               else None) /\
    (forall w name, nth_error weekday_names w = Some name ->
       named !! name = Some (count_if (commit_on_weekday (Z.of_nat w)) commits)) /\
    (forall name, is_Some (named !! name) -> In name weekday_names).
Proof.
  intros Hne Hv.
  destruct (get_stats_fields commits Hne Hv)
    as (stats & b & named & E & Eb & _ & _ & _ & _ & Hn & Hi & Hnames & Honly).
  exists stats, named, (by_hour b).
  split; [exact E|]. split; [exact Hn|]. split; [exact Hi|].
  split; [|split; assumption].
  intros h. rewrite (stats_loop_by_hour _ _ _ h Eb).
  cbn [initial_buckets by_hour]. rewrite zero_buckets_value.
  change (Z.of_nat 24) with 24.
  destruct ((0 <=? h) && (h <? 24)); reflexivity.
Qed.

Lemma count_if_on_day_zero (d : Z) (l : list Commit) :
  count_if (commit_on_day d) l = 0 <->
  d ∉ map (fun c => dt_date (timestamp c)) l.
Proof.
  induction l as [|c l IH].
  - split; [intros _ H; inversion H | reflexivity].
  - rewrite count_if_cons. pose proof (count_if_range (commit_on_day d) l) as Hr.
    simpl map. rewrite not_elem_of_cons, <- IH. unfold commit_on_day at 1.
    destruct (Z.eqb_spec (dt_date (timestamp c)) d) as [He | Hne].
    + split; [lia | intros [Hd _]; congruence].
    + split; [intros H; split; [congruence | lia] | intros [_ H]; lia].
Qed.

Lemma by_date_final (commits : list Commit) (b : Buckets) (d : Z) :
  stats_loop commits initial_buckets = Returned b ->
  by_date b !! d =
  if count_if (commit_on_day d) commits =? 0 then None
  else Some (count_if (commit_on_day d) commits).
Proof.
  intros H. rewrite (stats_loop_by_date _ _ _ d H).
  cbn [initial_buckets by_date]. rewrite lookup_empty. reflexivity.
Qed.

Lemma by_date_dom (commits : list Commit) (b : Buckets) :
  stats_loop commits initial_buckets = Returned b ->
  dom (by_date b) = active_dates commits.
Proof.
  intros H. apply set_eq. intros d.
  rewrite elem_of_dom, (by_date_final _ _ d H). unfold active_dates.
  rewrite elem_of_list_to_set.
  destruct (count_if (commit_on_day d) commits =? 0) eqn:E; zbool.
  - apply count_if_on_day_zero in E. split; [intros [v Hv]; discriminate | tauto].
  - split; [|eauto]. intros _.
    destruct (decide (d ∈ map (fun c => dt_date (timestamp c)) commits)) as [Hin | Hnot];
      [exact Hin|]. apply count_if_on_day_zero in Hnot. congruence.
Qed.

Lemma size_list_to_set_le (l : list Z) :
  (size (list_to_set l : gset Z) <= length l)%nat.
Proof.
  induction l as [|x l IH].
  - rewrite list_to_set_nil, size_empty. simpl. lia.
  - rewrite list_to_set_cons, size_union_alt, size_singleton. simpl length.
    assert (Hsub : list_to_set l ∖ {[x]} ⊆ (list_to_set l : gset Z)).
    { intros y Hy. apply elem_of_difference in Hy. tauto. }
    apply subseteq_size in Hsub. lia.
Qed.

Lemma fold_left_max_spec (l : list Z) (x : Z) :
  (fold_left Z.max l x = x \/ In (fold_left Z.max l x) l) /\
  x <= fold_left Z.max l x /\
  forall y, In y l -> y <= fold_left Z.max l x.
Proof.
  revert x. induction l as [|z l IH]; intros x; simpl.
  - split; [auto|]. split; [lia | tauto].
  - destruct (IH (Z.max x z)) as (Hin & Hge & Hall).
    split; [|split].
    + destruct Hin as [He | Hin]; [|auto].
      rewrite He. destruct (Z.max_spec x z) as [[_ ->] | [_ ->]]; auto.
    + lia.
    + intros y [<- | Hy]; [lia | auto].
Qed.

Lemma max_or_zero_spec (l : list Z) :
  l <> [] ->
  In (max_or_zero l) l /\ forall y, In y l -> y <= max_or_zero l.
Proof.
  destruct l as [|x l]; [congruence|]. intros _. simpl.
  destruct (fold_left_max_spec l x) as (Hin & Hge & Hall).
  split.
  - destruct Hin as [-> | Hin]; auto.
  - intros y [<- | Hy]; auto.
Qed.

Lemma active_days_spec (commits : list Commit) (b : Buckets) :
  stats_loop commits initial_buckets = Returned b ->
  size (by_date b) = size (active_dates commits).
Proof.
  intros H. rewrite <- (by_date_dom _ _ H), size_dom. reflexivity.
Qed.

Lemma active_dates_size (commits : list Commit) :
  commits <> [] ->
  (1 <= size (active_dates commits) <= length commits)%nat.
Proof.
  intros Hne. split.
  - destruct commits as [|c rest]; [congruence|].
    unfold active_dates. simpl map.
    rewrite list_to_set_cons, size_union_alt, size_singleton. lia.
  - unfold active_dates.
    pose proof (size_list_to_set_le (map (fun c => dt_date (timestamp c)) commits)) as Hs.
    rewrite length_map in Hs. exact Hs.
Qed.

(** The values of [by_date] are the non-zero daily counts. *)
Lemma daily_counts_spec (commits : list Commit) (b : Buckets) (x : Z) :
  stats_loop commits initial_buckets = Returned b ->
  In x (map_to_list (by_date b)).*2 <->
  exists d, x <> 0 /\ count_if (commit_on_day d) commits = x.
Proof.
  intros Eb. rewrite <- list_elem_of_In, list_elem_of_fmap. split.
  - intros ([d v] & -> & Hin). apply elem_of_map_to_list in Hin.
    rewrite (by_date_final _ _ d Eb) in Hin. simpl.
    destruct (count_if (commit_on_day d) commits =? 0) eqn:E0; [discriminate|].
    zbool. injection Hin as <-. eauto.
  - intros (d & Hx & Hc). exists (d, x). split; [reflexivity|].
    apply elem_of_map_to_list. rewrite (by_date_final _ _ d Eb), Hc.
    replace (x =? 0) with false by (symmetry; apply Z.eqb_neq; exact Hx).
    reflexivity.
Qed.

Lemma busiest_day_spec (commits : list Commit) (b : Buckets) :
  commits <> [] ->
  stats_loop commits initial_buckets = Returned b ->
  (exists d, count_if (commit_on_day d) commits = max_or_zero (map_to_list (by_date b)).*2) /\
  (forall d, count_if (commit_on_day d) commits <= max_or_zero (map_to_list (by_date b)).*2) /\
  1 <= max_or_zero (map_to_list (by_date b)).*2 <= len commits.
Proof.
  intros Hne Eb.
  assert (Hnonempty : (map_to_list (by_date b)).*2 <> []).
  { intros Hnil. apply fmap_nil_inv, map_to_list_empty_iff in Hnil.
    pose proof (active_days_spec _ _ Eb) as Hsize.
    pose proof (active_dates_size _ Hne) as Hact.
    rewrite Hnil, map_size_empty in Hsize. lia. }
  destruct (max_or_zero_spec _ Hnonempty) as [Hin Hall].
  apply (daily_counts_spec _ _ _ Eb) in Hin. destruct Hin as (dmax & Hpos & Hdmax).
  pose proof (count_if_range (commit_on_day dmax) commits) as Hr.
  split; [exists dmax; exact Hdmax|]. split; [|lia].
  intros d. pose proof (count_if_range (commit_on_day d) commits) as Hd.
  destruct (Z.eq_dec (count_if (commit_on_day d) commits) 0) as [H0 | Hn0]; [lia|].
  apply Hall, (daily_counts_spec _ _ _ Eb). eauto.
Qed.

(** X14.  [active_days] is the number of distinct dates among the events and
    [max_commits_in_day] is the largest number of events on one date: some
    date reaches it and none exceeds it.  Both lie between 1 and the total,
    and the average is the total divided by [active_days]. *)
Theorem get_stats_days (commits : list Commit) :
  commits <> [] ->
  Forall (fun c => valid_datetime (timestamp c)) commits ->
  exists stats active most,
    get_stats commits = Returned stats /\
    stats_field stats "active_days" = Returned (SInt active) /\
    stats_field stats "max_commits_in_day" = Returned (SInt most) /\
    stats_field stats "avg_commits_per_active_day" =
      Returned (SFloat (inject_Z (len commits) / inject_Z active)%Q) /\
    active = Z.of_nat (size (active_dates commits)) /\
    1 <= active <= len commits /\
    (exists d, count_if (commit_on_day d) commits = most) /\
    (forall d, count_if (commit_on_day d) commits <= most) /\
    1 <= most <= len commits.
Proof.
  intros Hne Hv.
  destruct (get_stats_fields commits Hne Hv)
    as (stats & b & named & E & Eb & _ & Ha & Havg & Hm & _).
  pose proof (active_days_spec _ _ Eb) as Hsize.
  pose proof (active_dates_size _ Hne) as Hact.
  destruct (busiest_day_spec _ _ Hne Eb) as (Hex & Hle & Hmost).
  exists stats, (Z.of_nat (size (by_date b))), (max_or_zero (map_to_list (by_date b)).*2).
  split; [exact E|]. split; [exact Ha|]. split; [exact Hm|].
  split.
  { rewrite Havg.
    replace (Z.of_nat (size (by_date b)) =? 0) with false
      by (symmetry; apply Z.eqb_neq; lia).
    reflexivity. }
  split; [rewrite Hsize; reflexivity|].
  split; [unfold len; lia|].
  split; [exact Hex|]. split; [exact Hle | exact Hmost].
Qed.

(** ** The order of the events does not matter to [get_stats] *)

Lemma dict_incr_unfold (d : gmap Z Z) (k : Z) :
  dict_incr d k =
  match d !! k with
  | Some v => Returned (<[k := v + 1]> d)
  | None => Raised KeyError
  end.
Proof. unfold dict_incr, dict_getitem. destruct (d !! k); reflexivity. Qed.

Lemma dict_incr_twice (d : gmap Z Z) (k1 k2 : Z) :
  (d1 <~ dict_incr d k1;; dict_incr d1 k2) =
  match d !! k1, d !! k2 with
  | Some v1, Some v2 =>
      Returned (if decide (k1 = k2) then <[k1 := v1 + 2]> d
                else <[k2 := v2 + 1]> (<[k1 := v1 + 1]> d))
  | _, _ => Raised KeyError
  end.
Proof.
  rewrite dict_incr_unfold. destruct (d !! k1) as [v1|] eqn:E1; [|reflexivity].
  cbn [obind]. rewrite dict_incr_unfold.
  destruct (decide (k1 = k2)) as [<- | Hne].
  - rewrite lookup_insert_eq, E1, insert_insert_eq. do 2 f_equal. lia.
  - rewrite lookup_insert_ne by exact Hne. destruct (d !! k2); reflexivity.
Qed.

Lemma dict_incr_twice_comm (d : gmap Z Z) (k1 k2 : Z) :
  (d1 <~ dict_incr d k1;; dict_incr d1 k2) = (d1 <~ dict_incr d k2;; dict_incr d1 k1).
Proof.
  rewrite !dict_incr_twice.
  destruct (d !! k1) as [v1|] eqn:E1, (d !! k2) as [v2|] eqn:E2; try reflexivity.
  destruct (decide (k1 = k2)) as [<- | Hne].
  - rewrite decide_True by reflexivity. congruence.
  - rewrite decide_False by congruence. f_equal.
    apply insert_insert_ne. congruence.
Qed.

Lemma by_date_bump_comm (d : gmap Z Z) (k1 k2 : Z) :
  <[k2 := default 0 (<[k1 := default 0 (d !! k1) + 1]> d !! k2) + 1]>
    (<[k1 := default 0 (d !! k1) + 1]> d) =
  <[k1 := default 0 (<[k2 := default 0 (d !! k2) + 1]> d !! k1) + 1]>
    (<[k2 := default 0 (d !! k2) + 1]> d).
Proof.
  destruct (decide (k1 = k2)) as [<- | Hne]; [reflexivity|].
  rewrite !lookup_insert_ne by congruence.
  apply insert_insert_ne. congruence.
Qed.

(** Two consecutive events, in terms of the two weekday updates and the
    two hour updates. *)
Lemma stats_loop_two (x y : Commit) (l : list Commit) (b : Buckets) :
  stats_loop (x :: y :: l) b =
  (w <~ (d1 <~ dict_incr (by_weekday b) (PyDate.weekday (dt_date (timestamp x)));;
         dict_incr d1 (PyDate.weekday (dt_date (timestamp y))));;
   h <~ (d1 <~ dict_incr (by_hour b) (dt_hour (timestamp x));;
         dict_incr d1 (dt_hour (timestamp y)));;
   stats_loop l
     (mk_Buckets
        (<[dt_date (timestamp y) :=
             default 0 (<[dt_date (timestamp x) :=
                            default 0 (by_date b !! dt_date (timestamp x)) + 1]>
                          (by_date b) !! dt_date (timestamp y)) + 1]>
           (<[dt_date (timestamp x) :=
                default 0 (by_date b !! dt_date (timestamp x)) + 1]> (by_date b)))
        w h)).
Proof.
  cbn [stats_loop by_date by_weekday by_hour].
  rewrite !dict_incr_unfold.
  destruct (by_weekday b !! PyDate.weekday (dt_date (timestamp x))) as [vw|] eqn:Ew;
    cbn [obind]; [|reflexivity].
  destruct (by_hour b !! dt_hour (timestamp x)) as [vh|] eqn:Eh; cbn [obind].
  - rewrite !dict_incr_unfold.
    destruct (<[_ := vw + 1]> (by_weekday b) !! _) as [vw'|]; cbn [obind]; [|reflexivity].
    destruct (<[_ := vh + 1]> (by_hour b) !! _) as [vh'|]; cbn [obind]; reflexivity.
  - rewrite !dict_incr_unfold.
    destruct (<[_ := vw + 1]> (by_weekday b) !! _) as [vw'|]; cbn [obind]; reflexivity.
Qed.

Lemma stats_loop_swap (x y : Commit) (l : list Commit) (b : Buckets) :
  stats_loop (x :: y :: l) b = stats_loop (y :: x :: l) b.
Proof.
  rewrite !stats_loop_two.
  rewrite (dict_incr_twice_comm (by_weekday b)), (dict_incr_twice_comm (by_hour b)).
  rewrite (by_date_bump_comm (by_date b)). reflexivity.
Qed.

Lemma stats_loop_cons_eq (c : Commit) (l1 l2 : list Commit) :
  (forall b, stats_loop l1 b = stats_loop l2 b) ->
  forall b, stats_loop (c :: l1) b = stats_loop (c :: l2) b.
Proof.
  intros H b. cbn [stats_loop].
  destruct (dict_incr (by_weekday b) _) as [w| |]; cbn [obind]; try reflexivity.
  destruct (dict_incr (by_hour b) _) as [h| |]; cbn [obind]; try reflexivity.
  apply H.
Qed.

Lemma stats_loop_permutation (l1 l2 : list Commit) :
  Permutation l1 l2 -> forall b, stats_loop l1 b = stats_loop l2 b.
Proof.
  induction 1 as [|c l1 l2 Hp IH|x y l|l1 l2 l3 H1 IH1 H2 IH2]; intros b.
  - reflexivity.
  - apply stats_loop_cons_eq. exact IH.
  - apply stats_loop_swap.
  - rewrite IH1. apply IH2.
Qed.

(** X15.  [get_stats] does not depend on the order of the events: two lists
    with the same events in any order give the same outcome, the same
    summary or the same error. *)
Theorem get_stats_permutation (l1 l2 : list Commit) :
  Permutation l1 l2 -> get_stats l1 = get_stats l2.
Proof.
  intros Hp. pose proof (Permutation_length Hp) as Hlen.
  pose proof (stats_loop_permutation _ _ Hp initial_buckets) as Hloop.
  destruct l1 as [|c1 r1], l2 as [|c2 r2]; try discriminate; [reflexivity|].
  unfold get_stats. fold initial_buckets. rewrite Hloop.
  unfold len. rewrite Hlen. reflexivity.
Qed.

(** ** Summarising the events of a run *)

Section RunSummary.
Context {G : Type} {RG : RandomGen G}.

Lemma active_dates_in_range (self : ContributionSimulator) (evs : list Commit) :
  Forall (event_in self (start_date self) (end_date self)) evs ->
  Z.of_nat (size (active_dates evs)) <= days_in_range self.
Proof.
  intros Hin. unfold days_in_range.
  set (n := end_date self + 1 - start_date self).
  assert (Hsub : active_dates evs ⊆ list_to_set (seqZ (start_date self) (Z.max 0 n))).
  { intros d Hd. unfold active_dates in Hd.
    apply elem_of_list_to_set, list_elem_of_In, in_map_iff in Hd.
    destruct Hd as (c & <- & Hc).
    rewrite List.Forall_forall in Hin.
    destruct (Hin c Hc) as [Hr _].
    apply elem_of_list_to_set, elem_of_seqZ. unfold n. lia. }
  apply subseteq_size in Hsub.
  rewrite size_list_to_set in Hsub by apply NoDup_seqZ.
  rewrite length_seqZ in Hsub. lia.
Qed.

(** X16.  [get_stats] never fails on the events of a run.  When the run gave no
    event the summary is the empty dictionary; otherwise it has the total,
    at most as many active days as the range has days, and a busiest day
    within the daily cap of the profile. *)
Theorem get_stats_of_simulate (self : ContributionSimulator) (evs : list Commit) (g g' : G) :
  well_formed (config (profile self)) ->
  simulate self g = Returned (evs, g') ->
  (evs = [] /\ get_stats evs = Returned ∅) \/
  (exists stats active most,
     get_stats evs = Returned stats /\
     stats_field stats "total_commits" = Returned (SInt (len evs)) /\
     stats_field stats "active_days" = Returned (SInt active) /\
     stats_field stats "max_commits_in_day" = Returned (SInt most) /\
     1 <= active <= days_in_range self /\
     1 <= most <= max_commits_per_day (config (profile self))).
Proof.
  intros Hwf H. destruct evs as [|c rest]; [left; split; reflexivity|]. right.
  pose proof (simulate_well_formed _ _ _ _ H) as Hwfc.
  assert (Hv : Forall (fun c => valid_datetime (timestamp c)) (c :: rest)).
  { eapply Forall_impl; [exact Hwfc|]. intros c0 [Hc _]. exact Hc. }
  destruct (get_stats_fields (c :: rest) ltac:(discriminate) Hv)
    as (stats & b & named & E & Eb & Ht & Ha & _ & Hm & _).
  pose proof (active_days_spec _ _ Eb) as Hsize.
  pose proof (active_dates_size (c :: rest) ltac:(discriminate)) as Hact.
  destruct (busiest_day_spec (c :: rest) b ltac:(discriminate) Eb) as ((d & Hd) & _ & Hmost).
  pose proof (simulate_spec _ _ _ _ H) as [_ Hin].
  pose proof (active_dates_in_range self _ Hin) as Hdays.
  assert (Hcap : count_if (commit_on_day d) (c :: rest)
                 <= max_commits_per_day (config (profile self))).
  { unfold simulate in H.
    eapply simulate_loop_per_day; [exact Hwf | exact H | constructor |].
    intros d'. unfold count_if, len. simpl. destruct Hwf as (Hmax & _). lia. }
  exists stats, (Z.of_nat (size (by_date b))), (max_or_zero (map_to_list (by_date b)).*2).
  split; [exact E|]. split; [exact Ht|]. split; [exact Ha|]. split; [exact Hm|].
  split; lia.
Qed.

End RunSummary.

(** ** Splitting the range of a run *)

Section RangeSplit.
Context {G : Type} {RG : RandomGen G}.

Lemma generate_day_ext (self self' : ContributionSimulator) (date : PyDate.date) :
  profile self = profile self' -> generate_day self date = generate_day self' date.
Proof.
  intros Hp.
  unfold generate_day, _should_commit_today, _get_commit_count, _generate_commit_times.
  rewrite Hp. reflexivity.
Qed.

Lemma simulate_loop_ext_eq (self self' : ContributionSimulator) (fuel : nat)
    (current : PyDate.date) (acc : list Commit) (g : G) :
  profile self = profile self' -> end_date self = end_date self' ->
  simulate_loop self fuel current acc g = simulate_loop self' fuel current acc g.
Proof.
  intros Hp He. revert current acc g.
  induction fuel as [|fuel IH]; intros current acc g; simpl; rewrite He.
  - reflexivity.
  - destruct (current <=? end_date self'); [|reflexivity].
    rewrite (generate_day_ext self self' current Hp).
    unfold bind.
    destruct (generate_day self' current g) as [[day g1]| |]; try reflexivity.
    destruct (lift (PyDate.add_days current 1) g1) as [[next g2]| |]; try reflexivity.
    apply IH.
Qed.

(** The events gathered so far are only ever extended at the end. *)
Lemma simulate_loop_acc (self : ContributionSimulator) (fuel : nat)
    (current : PyDate.date) (acc : list Commit) (g : G) :
  simulate_loop self fuel current acc g =
  (r <- simulate_loop self fuel current [];; ret (acc ++ r)) g.
Proof.
  revert current acc g. induction fuel as [|fuel IH]; intros current acc g.
  - simpl. unfold bind, ret. destruct (current <=? end_date self); [reflexivity|].
    rewrite app_nil_r. reflexivity.
  - simpl. unfold bind, ret in *. destruct (current <=? end_date self).
    2:{ rewrite app_nil_r. reflexivity. }
    destruct (generate_day self current g) as [[day g1]| |]; try reflexivity.
    destruct (lift (PyDate.add_days current 1) g1) as [[next g2]| |]; try reflexivity.
    rewrite (IH next (acc ++ day)), (IH next day).
    destruct (simulate_loop self fuel next [] g2) as [[r g3]| |]; try reflexivity.
    rewrite app_assoc. reflexivity.
Qed.

Lemma add_days_one (current : PyDate.date) (g : G) (next : PyDate.date) (g' : G) :
  lift (PyDate.add_days current 1) g = Returned (next, g') ->
  next = current + 1 /\ g' = g.
Proof.
  intros H. apply lift_Returned in H. simpl in H. destruct H as [H ->].
  apply add_days_Returned in H. tauto.
Qed.

(** Enough fuel is as good as more. *)
Lemma simulate_loop_fuel (self : ContributionSimulator) (f1 f2 : nat)
    (current : PyDate.date) (acc : list Commit) (g : G) :
  end_date self + 1 - current <= Z.of_nat f1 ->
  end_date self + 1 - current <= Z.of_nat f2 ->
  simulate_loop self f1 current acc g = simulate_loop self f2 current acc g.
Proof.
  revert f2 current acc g. induction f1 as [|f1 IH]; intros f2 current acc g H1 H2.
  - rewrite !simulate_loop_past_end by lia. reflexivity.
  - destruct f2 as [|f2]; [rewrite !simulate_loop_past_end by lia; reflexivity|].
    simpl. destruct (current <=? end_date self); [|reflexivity].
    unfold bind.
    destruct (generate_day self current g) as [[day g1]| |]; try reflexivity.
    destruct (lift (PyDate.add_days current 1) g1) as [[next g2]| |] eqn:En;
      try reflexivity.
    apply add_days_one in En. destruct En as [-> ->].
    apply IH; lia.
Qed.

(** Changing the last day of the range only matters once it is reached. *)
Lemma simulate_loop_split (self part : ContributionSimulator) (f fp fr : nat)
    (current : PyDate.date) (acc : list Commit) (g : G) :
  profile part = profile self ->
  current <= end_date part + 1 -> end_date part <= end_date self ->
  end_date self + 1 - current <= Z.of_nat f ->
  end_date part + 1 - current <= Z.of_nat fp ->
  end_date self - end_date part <= Z.of_nat fr ->
  simulate_loop self f current acc g =
  (a <- simulate_loop part fp current acc;; simulate_loop self fr (end_date part + 1) a) g.
Proof.
  intros Hp. revert f current acc g.
  induction fp as [|fp IH]; intros f current acc g Hc Hpe Hf Hfp Hfr.
  - unfold bind. rewrite (simulate_loop_past_end part) by lia.
    replace (end_date part + 1) with current by lia.
    apply simulate_loop_fuel; lia.
  - destruct (Z_lt_le_dec (end_date part) current) as [Hpast | Hin].
    { unfold bind. rewrite (simulate_loop_past_end part) by lia.
      replace (end_date part + 1) with current by lia.
      apply simulate_loop_fuel; lia. }
    destruct f as [|f]; [simpl in Hf; lia|].
    simpl.
    replace (current <=? end_date self) with true by (symmetry; apply Z.leb_le; lia).
    replace (current <=? end_date part) with true by (symmetry; apply Z.leb_le; lia).
    rewrite (generate_day_ext part self current Hp).
    unfold bind in *.
    destruct (generate_day self current g) as [[day g1]| |]; try reflexivity.
    destruct (lift (PyDate.add_days current 1) g1) as [[next g2]| |] eqn:En;
      try reflexivity.
    apply add_days_one in En. destruct En as [-> ->].
    apply IH; lia.
Qed.

(** X3.  A run over a range is a run over its first days followed, from the
    generator state that run leaves, by a run over the remaining days: the
    events are those of the first part followed by those of the second. *)
Theorem simulate_split (self : ContributionSimulator) (last_of_first : PyDate.date) (g : G) :
  start_date self <= last_of_first + 1 ->
  last_of_first <= end_date self ->
  simulate self g =
  (a <- simulate (with_range self (start_date self) last_of_first);;
   b <- simulate (with_range self (last_of_first + 1) (end_date self));;
   ret (a ++ b)) g.
Proof.
  intros Hs He.
  assert (E1 : simulate self g =
               (a <- simulate (with_range self (start_date self) last_of_first);;
                simulate_loop self (Z.to_nat (end_date self - last_of_first))
                  (last_of_first + 1) a) g).
  { unfold simulate.
    apply (simulate_loop_split self (with_range self (start_date self) last_of_first));
      simpl; try lia; reflexivity. }
  rewrite E1. unfold bind.
  destruct (simulate (with_range self (start_date self) last_of_first) g)
    as [[a g1]| |]; try reflexivity.
  rewrite simulate_loop_acc. unfold bind, ret, simulate.
  rewrite (simulate_loop_ext_eq (with_range self (last_of_first + 1) (end_date self)) self)
    by reflexivity.
  cbn [with_range start_date end_date].
  replace (end_date self + 1 - (last_of_first + 1)) with (end_date self - last_of_first)
    by lia.
  reflexivity.
Qed.

End RangeSplit.

(** ** Errors of a whole run *)

Section RunErrors.
Context {G : Type} {RG : RandomGen G}.

(** X9.  With an empty range of active hours the first hour draw of a day
    raises [ValueError]; a count of zero or less draws nothing and returns
    the empty list. *)
Theorem commit_times_empty_hour_range (self : ContributionSimulator)
    (date : PyDate.date) (count : Z) (g : G) :
  commit_time_end (config (profile self)) < commit_time_start (config (profile self)) ->
  (1 <= count -> _generate_commit_times self date count g = Raised ValueError) /\
  (count <= 0 -> _generate_commit_times self date count g = Returned ([], g)).
Proof.
  intros Hempty. unfold _generate_commit_times, bind. split; intros Hc.
  - destruct (Z.to_nat count) as [|n] eqn:En; [lia|].
    simpl. unfold _biased_hour. simpl. unfold bind at 1 2.
    rewrite randint_empty by exact Hempty. reflexivity.
  - replace (Z.to_nat count) with 0%nat by lia. reflexivity.
Qed.

(** X1.  What a whole run (building the simulator, then [simulate]) can do on
    valid dates: it raises [ValueError] when the intensity is not one of the
    three names, [OverflowError] when a non-reversed range ends on
    [date.max], and returns a list of events in every other case. *)
Theorem run_simulation_outcomes (today start end_ : PyDate.date) (name : string)
    (seed : option Z) (g : G) :
  PyDate.valid start -> PyDate.valid end_ ->
  (~ canonical name ->
   run_simulation today start (Some end_) name seed g = Raised ValueError) /\
  (canonical name -> start <= end_ -> end_ = PyDate.MAXORDINAL ->
   run_simulation today start (Some end_) name seed g = Raised OverflowError) /\
  (canonical name -> end_ < start \/ end_ < PyDate.MAXORDINAL ->
   exists evs g', run_simulation today start (Some end_) name seed g = Returned (evs, g')).
Proof.
  intros [Hs1 _] [_ He2].
  unfold run_simulation, ContributionSimulator_init, ContributionProfile_init, bind, lift.
  split; [|split].
  - intros Hn. destruct (PROFILES !! name) as [c|] eqn:E; [|reflexivity].
    exfalso. apply Hn, PROFILES_canonical. eauto.
  - intros Hc Hse Hmax. apply PROFILES_canonical in Hc. destruct Hc as [c Hc].
    rewrite Hc. pose proof (canonical_well_formed _ _ Hc) as Hwf.
    destruct seed as [n|]; unfold ret;
      match goal with |- simulate ?self ?g0 = _ =>
        apply (proj2 (simulate_outcome self g0 Hwf Hs1 He2)); simpl; assumption
      end.
  - intros Hc Hcase. apply PROFILES_canonical in Hc. destruct Hc as [c Hc].
    rewrite Hc. pose proof (canonical_well_formed _ _ Hc) as Hwf.
    destruct seed as [n|]; unfold ret;
      match goal with |- exists _ _, simulate ?self ?g0 = _ =>
        apply (proj1 (simulate_outcome self g0 Hwf Hs1 He2)); simpl; tauto
      end.
Qed.

End RunErrors.

(** ** Concrete runs for the further properties *)

Lemma monday_events_valid :
  Forall (fun c => valid_datetime (timestamp c)) monday_events.
Proof. repeat constructor; vm_compute; discriminate. Qed.

Lemma simulate_overflow_iff_date_max_witness :
  well_formed (config (profile last_day_simulator)) /\
  PyDate.valid (start_date last_day_simulator) /\
  simulate last_day_simulator monday_script = Raised OverflowError.
Proof.
  assert (Hv : PyDate.valid (start_date last_day_simulator))
    by (split; vm_compute; discriminate).
  split; [exact medium_well_formed|]. split; [exact Hv|].
  apply (proj1 (simulate_overflow_iff_date_max last_day_simulator monday_script
                  medium_well_formed Hv Hv ltac:(vm_compute; discriminate))).
  reflexivity.
Defined.

Lemma simulate_total_bound_witness :
  len monday_events <= 8 * days_in_range monday_simulator.
Proof.
  exact (simulate_total_bound monday_simulator monday_events monday_script monday_final
           medium_well_formed monday_run).
Defined.

Lemma simulate_per_day_cap_witness :
  count_if (commit_on_day (PyDate.ymd 2022 1 3)) monday_events <= 8.
Proof.
  exact (simulate_per_day_cap monday_simulator monday_events monday_script monday_final
           medium_well_formed monday_run (PyDate.ymd 2022 1 3)).
Defined.

Lemma simulate_labels_witness :
  Forall (fun c => action_object_label (message c) /\ message c <> EmptyString) monday_events.
Proof.
  exact (simulate_labels monday_simulator monday_events monday_script monday_final
           monday_run).
Defined.

Lemma simulate_valid_timestamps_witness :
  Forall (fun c => valid_datetime (timestamp c)) monday_events.
Proof.
  exact (simulate_valid_timestamps monday_simulator monday_events monday_script
           monday_final monday_run).
Defined.

Lemma simulate_split_witness :
  simulate three_day_simulator monday_script =
  (a <- simulate (with_range three_day_simulator (PyDate.ymd 2022 1 3) (PyDate.ymd 2022 1 3));;
   b <- simulate (with_range three_day_simulator (PyDate.ymd 2022 1 3 + 1) (PyDate.ymd 2022 1 5));;
   ret (a ++ b)) monday_script.
Proof.
  apply (simulate_split three_day_simulator (PyDate.ymd 2022 1 3) monday_script).
  - vm_compute. discriminate.
  - vm_compute. discriminate.
Defined.

Lemma get_stats_buckets_count_witness :
  exists stats named indexed,
    get_stats monday_events = Returned stats /\
    stats_field stats "by_hour" = Returned (SIndexed indexed) /\
    stats_field stats "by_weekday" = Returned (SNamed named) /\
    indexed !! 13 = Some 1 /\ named !! "Mon"%string = Some 3.
Proof.
  destruct (get_stats_buckets_count monday_events ltac:(discriminate) monday_events_valid)
    as (stats & named & indexed & E & En & Ei & Hh & Hw & _).
  exists stats, named, indexed. repeat (split; [assumption|]). split.
  - rewrite Hh. reflexivity.
  - rewrite (Hw 0%nat "Mon"%string eq_refl). reflexivity.
Defined.

Lemma get_stats_days_witness :
  exists stats,
    get_stats monday_events = Returned stats /\
    stats_field stats "active_days" = Returned (SInt 1) /\
    stats_field stats "max_commits_in_day" = Returned (SInt 3).
Proof.
  destruct (get_stats_days monday_events ltac:(discriminate) monday_events_valid)
    as (stats & active & most & E & Ea & Em & _ & Hact & Hr & (d & Hd) & Hle & Hm).
  exists stats. split; [exact E|].
  assert (Hone : active = 1) by (rewrite Hact; vm_compute; reflexivity).
  assert (H3 : most = 3).
  { assert (Hlen : len monday_events = 3) by reflexivity.
    pose proof (Hle (PyDate.ymd 2022 1 3)) as Hday.
    assert (Hc : count_if (commit_on_day (PyDate.ymd 2022 1 3)) monday_events = 3)
      by reflexivity.
    lia. }
  rewrite Hone in Ea. rewrite H3 in Em. split; assumption.
Defined.

Lemma get_stats_permutation_witness :
  Permutation monday_events monday_events_swapped /\
  get_stats monday_events = get_stats monday_events_swapped.
Proof.
  assert (Hp : Permutation monday_events monday_events_swapped)
    by (unfold monday_events, monday_events_swapped; apply perm_swap).
  split; [exact Hp|].
  exact (get_stats_permutation monday_events monday_events_swapped Hp).
Defined.

Lemma get_stats_of_simulate_witness :
  (monday_events = [] /\ get_stats monday_events = Returned ∅) \/
  (exists stats active most,
     get_stats monday_events = Returned stats /\
     stats_field stats "total_commits" = Returned (SInt (len monday_events)) /\
     stats_field stats "active_days" = Returned (SInt active) /\
     stats_field stats "max_commits_in_day" = Returned (SInt most) /\
     1 <= active <= days_in_range monday_simulator /\
     1 <= most <= 8).
Proof.
  exact (get_stats_of_simulate monday_simulator monday_events monday_script monday_final
           medium_well_formed monday_run).
Defined.

Lemma commit_times_empty_hour_range_witness :
  _generate_commit_times empty_hours_simulator (PyDate.ymd 2022 1 3) 3 monday_script
  = Raised ValueError.
Proof.
  apply (proj1 (commit_times_empty_hour_range empty_hours_simulator (PyDate.ymd 2022 1 3)
                  3 monday_script ltac:(vm_compute; reflexivity))).
  vm_compute. discriminate.
Defined.

Lemma run_simulation_outcomes_witness :
  PyDate.valid (PyDate.ymd 2022 1 1) /\ PyDate.valid (PyDate.ymd 2022 1 31) /\
  exists evs g',
    run_simulation (PyDate.ymd 2024 1 1) (PyDate.ymd 2022 1 1)
      (Some (PyDate.ymd 2022 1 31)) "heavy" (Some 42) monday_script = Returned (evs, g').
Proof.
  assert (H1 : PyDate.valid (PyDate.ymd 2022 1 1)) by (split; vm_compute; discriminate).
  assert (H2 : PyDate.valid (PyDate.ymd 2022 1 31)) by (split; vm_compute; discriminate).
  split; [exact H1|]. split; [exact H2|].
  apply (proj2 (proj2 (run_simulation_outcomes (PyDate.ymd 2024 1 1) (PyDate.ymd 2022 1 1)
                         (PyDate.ymd 2022 1 31) "heavy" (Some 42) monday_script H1 H2))).
  - right. right. reflexivity.
  - right. vm_compute. reflexivity.
Defined.

(** ** [generate_contributions] *)

Section MaterializeFacts.
Context {G W : Type} {RG : RandomGen G}.
Variable create_commit : string -> datetime -> string -> Z -> W -> bool * W.

Lemma run_simulation_well_formed (today start : PyDate.date) (end_ : option PyDate.date)
    (name : string) (seed : option Z) (evs : list Commit) (g g' : G) :
  run_simulation today start end_ name seed g = Returned (evs, g') ->
  Forall well_formed_commit evs.
Proof.
  unfold run_simulation. intros H. bind_inv H as self g1 Hinit.
  eapply simulate_well_formed; eauto.
Qed.

(** X17.  [generate_contributions] returns the number of scheduled events, not
    the number of commits that were created: the count is the same in a
    dry run, which leaves the repository untouched, and in a live run
    whatever [create_commit] does.  When the schedule is empty it raises
    [KeyError] instead, on reading [stats['total_commits']]. *)
Theorem generate_contributions_outcome (today : PyDate.date) (repo_path : string)
    (start : PyDate.date) (end_ : option PyDate.date) (name : string) (seed : option Z)
    (dry_run : bool) (evs : list Commit) (g g' : G) (w : W) :
  run_simulation today start
    (Some (match end_ with Some e => e | None => today end)) name seed g
  = Returned (evs, g') ->
  (evs = [] ->
   generate_contributions create_commit today repo_path start end_ name seed dry_run g w
   = Raised KeyError) /\
  (evs <> [] ->
   generate_contributions create_commit today repo_path start end_ name seed dry_run g w
   = Returned (len evs,
               (g', if dry_run then w else create_commits create_commit repo_path evs 1 w))).
Proof.
  intros Hrun. unfold generate_contributions. rewrite Hrun. split.
  - intros ->. reflexivity.
  - intros Hne.
    assert (Hv : Forall (fun c => valid_datetime (timestamp c)) evs).
    { apply run_simulation_well_formed in Hrun.
      eapply Forall_impl; [exact Hrun|]. intros c [Hc _]. exact Hc. }
    destruct (get_stats_fields evs Hne Hv)
      as (stats & b & named & E & _ & Ht & Ha & Havg & _).
    rewrite E. cbn [obind]. rewrite Ht. cbn [obind]. rewrite Ha. cbn [obind].
    rewrite Havg. cbn [obind]. destruct dry_run; reflexivity.
Qed.

End MaterializeFacts.

Lemma generate_contributions_outcome_witness :
  generate_contributions failing_create_commit (PyDate.ymd 2024 1 1) "repo"
    (PyDate.ymd 2022 1 3) (Some (PyDate.ymd 2022 1 3)) "medium" None false
    monday_script []
  = Returned (3, (monday_final, [1; 2; 3])).
Proof.
  assert (Hrun : run_simulation (PyDate.ymd 2024 1 1) (PyDate.ymd 2022 1 3)
                   (Some (PyDate.ymd 2022 1 3)) "medium" None monday_script
                 = Returned (monday_events, monday_final)) by (vm_compute; reflexivity).
  exact (proj2 (generate_contributions_outcome failing_create_commit
                  (PyDate.ymd 2024 1 1) "repo" (PyDate.ymd 2022 1 3)
                  (Some (PyDate.ymd 2022 1 3)) "medium" None false
                  monday_events monday_script monday_final [] Hrun)
               ltac:(discriminate)).
Defined.
